(** * mymac.py: the board-name lookup and the dark-mode flag

    A shallow embedding of [src/1.0/mymac.py]: the helper
    [get_motherboard_name], the memory label computed by both dialogs, and
    the dark-mode flag shared between [AboutThisMac] and [MoreInfoWindow]
    through the [dark_mode_changed] signal.

    Python strings are sequences of Unicode code points, and [len] and
    slicing count code points; a [str] is therefore a list of code points.
    Exceptions are threaded through ExtLib's [sum] monad: [inl e] is a raised
    exception, [inr v] a returned value. *)

From Stdlib Require Import String Ascii DecimalString ZArith NArith Bool List Lia.
From ExtLib Require Import Structures.Monad Structures.MonadExc Data.Monads.EitherMonad.
Import ListNotations.
Import MonadNotation.
Local Open Scope monad_scope.
Local Open Scope list_scope.

(** ** Python strings *)

Definition char := N.
Definition str := list char.

(** An ASCII literal of the source as a [str]. *)
Definition py (s : string) : str := map N_of_ascii (list_ascii_of_string s).

Fixpoint str_eqb (a b : str) : bool :=
  match a, b with
  | [], [] => true
  | x :: a', y :: b' => N.eqb x y && str_eqb a' b'
  | _, _ => false
  end.

(** [str.isspace] on one code point (CPython's [_PyUnicode_IsWhitespace]). *)
Definition isspace (c : char) : bool :=
  ((9 <=? c) && (c <=? 13) || (28 <=? c) && (c <=? 32)
   || (c =? 133) || (c =? 160) || (c =? 5760)
   || (8192 <=? c) && (c <=? 8202)
   || (c =? 8232) || (c =? 8233) || (c =? 8239) || (c =? 8287)
   || (c =? 12288))%N.

(** The line boundaries of [str.splitlines] (CPython's
    [_PyUnicode_IsLinebreak]). *)
Definition islinebreak (c : char) : bool :=
  ((10 <=? c) && (c <=? 13) || (28 <=? c) && (c <=? 30)
   || (c =? 133) || (c =? 8232) || (c =? 8233))%N.

Fixpoint lstrip (s : str) : str :=
  match s with
  | [] => []
  | c :: rest => if isspace c then lstrip rest else s
  end.

Definition rstrip (s : str) : str := rev (lstrip (rev s)).

(** [s.strip()] *)
Definition strip (s : str) : str := rstrip (lstrip s).

(** [s.splitlines()]: the lines without their terminators; a carriage
    return followed by a line feed is one terminator; no empty last line. *)
Fixpoint splitlines (s : str) : list str :=
  match s with
  | [] => []
  | c :: rest =>
      if islinebreak c then
        [] :: match rest with
              | c2 :: rest' =>
                  if ((c =? 13) && (c2 =? 10))%N then splitlines rest'
                  else splitlines rest
              | [] => []
              end
      else
        match splitlines rest with
        | [] => [[c]]
        | l :: ls => (c :: l) :: ls
        end
  end.

(** Truthiness of a string: non-empty. *)
Definition truthy (s : str) : bool :=
  match s with [] => false | _ :: _ => true end.

(** ** Exceptions *)

(** The exceptions the program's operations raise: [subprocess.check_output]
    ([CalledProcessError], [OSError] and its subclasses), [open] and [read]
    ([OSError] and its subclasses, [UnicodeDecodeError]), indexing
    ([IndexError]), true division ([OverflowError]), all of them instances of
    [Exception]; and [KeyboardInterrupt] and [SystemExit], which derive from
    [BaseException] only and are raised inside whatever operation is running
    when the interrupt arrives or the interpreter is asked to exit
    ([check_output] re-raises a [KeyboardInterrupt] that arrives while it
    waits for the command). *)
Inductive exn : Type :=
| FileNotFoundError
| PermissionError
| IsADirectoryError
| OSError (errno : Z)
| CalledProcessError (returncode : Z)
| UnicodeDecodeError
| IndexError
| OverflowError
| OtherException (name : string)
| KeyboardInterrupt
| SystemExit (code : Z).

Definition M := sum exn.

Definition isinstance_FileNotFoundError (e : exn) : bool :=
  match e with
  | FileNotFoundError => true
  | _ => false
  end.

Definition isinstance_Exception (e : exn) : bool :=
  match e with
  | FileNotFoundError | PermissionError | IsADirectoryError | OSError _
  | CalledProcessError _ | UnicodeDecodeError | IndexError | OverflowError
  | OtherException _ => true
  | KeyboardInterrupt | SystemExit _ => false
  end.

(** [try: body except cls: handler]: an exception that is not an instance
    of [cls] propagates. *)
Definition try_except {A} (body : M A) (cls : exn -> bool) (handler : M A) : M A :=
  catch body (fun e => if cls e then handler else raise e).

(** [l[i]] *)
Definition getitem {A} (l : list A) (i : nat) : M A :=
  match nth_error l i with
  | Some x => ret x
  | None => raise IndexError
  end.

(** ** The platform *)

(** What the helper reads from its environment. [wmic_output] is the value
    of [subprocess.check_output("wmic baseboard get product",
    shell=True).decode(errors="ignore")]: the decoded text, or the exception
    the invocation raised (decoding with [errors="ignore"] raises none).
    [open_board_name] and [read_board_name] are the outcomes of opening and
    of reading [/sys/class/dmi/id/board_name]. *)
Record world := {
  platform_system : str;
  platform_release : str;
  platform_processor : str;
  wmic_output : M str;
  open_board_name : M unit;
  read_board_name : M str;
  virtual_memory_total : M Z
}.

Definition UNKNOWN_BOARD : str := py "Unknown Board".

(** Lines 38-39: [if len(mb_name) > 20: mb_name = mb_name[:20] + "..."]. *)
Definition shorten (mb_name : str) : str :=
  if 20 <? length mb_name then firstn 20 mb_name ++ py "..." else mb_name.

(** Line 24: [[line.strip() for line in output.splitlines() if line.strip()]]. *)
Definition stripped_lines (output : str) : list str :=
  map strip (filter (fun line => truthy (strip line)) (splitlines output)).

(** Lines 20-26, the Windows branch. *)
Definition windows_board_name (w : world) (mb_name : str) : M str :=
  output <- wmic_output w ;;
  let lines := stripped_lines output in
  if 1 <? length lines then getitem lines 1 else ret mb_name.

(** Lines 27-33, the Linux branch. *)
Definition linux_board_name (w : world) (mb_name : str) : M str :=
  try_except
    (_ <- open_board_name w ;;
     content <- read_board_name w ;;
     ret (strip content))
    isinstance_FileNotFoundError
    (ret mb_name).

(** Lines 17-35: the name before shortening. *)
Definition raw_board_name (w : world) : M str :=
  let system_name := platform_system w in
  let mb_name := UNKNOWN_BOARD in
  if str_eqb system_name (py "Windows") then windows_board_name w mb_name
  else if str_eqb system_name (py "Linux") then linux_board_name w mb_name
  else ret UNKNOWN_BOARD.

(** Lines 17-41, the body of the outer [try]. *)
Definition get_motherboard_name_body (w : world) : M str :=
  mb_name <- raw_board_name w ;;
  ret (shorten mb_name).

(** Lines 11-44. *)
Definition get_motherboard_name (w : world) : M str :=
  try_except (get_motherboard_name_body w) isinstance_Exception (ret UNKNOWN_BOARD).

(** ** The memory label

    [psutil.virtual_memory().total / (1024**3)] is Python's true division of
    two integers: the binary64 number nearest to the exact quotient (ties to
    even), or [OverflowError] when that is out of range.  The divisor is a
    power of two, so the quotient's significand is the dividend's: the result
    is the dividend rounded to 53 significant bits, divided by [2^30]. *)

Local Open Scope Z_scope.

Definition GiB : Z := 1024 ^ 3.

(** A non-negative integer rounded to 53 significant bits, ties to even. *)
Definition round53 (n : Z) : Z :=
  if n <? 2 ^ 53 then n
  else
    let e := Z.log2 n - 52 in
    let q := n / 2 ^ e in
    let r := n mod 2 ^ e in
    let half := 2 ^ (e - 1) in
    let q' := if r <? half then q
              else if half <? r then q + 1
              else if Z.even q then q else q + 1 in
    q' * 2 ^ e.

(** [total / (1024**3)] as a binary64 number, given by its numerator over
    [GiB]. *)
Definition truediv_GiB (total : Z) : M Z :=
  let num := Z.sgn total * round53 (Z.abs total) in
  if 2 ^ 1024 * GiB <=? Z.abs num then raise OverflowError else ret num.

(** [int(total / (1024**3))]: [int] of a float truncates towards zero. *)
Definition memory_gb (total : Z) : M Z :=
  num <- truediv_GiB total ;;
  ret (Z.quot num GiB).

(** [str(n)] for an integer. *)
Definition str_of_int (n : Z) : str := py (NilZero.string_of_int (Z.to_int n)).

(** Line 72: [f"{int(psutil.virtual_memory().total / (1024**3))} GB"]. *)
Definition memory_info (w : world) : M str :=
  total <- virtual_memory_total w ;;
  gb <- memory_gb total ;;
  ret (str_of_int gb ++ py " GB")%list.

(** Lines 154 and 160: [f"<b>Memory</b>: {int(total_memory)} GB"]. *)
Definition memory_label (w : world) : M str :=
  total <- virtual_memory_total w ;;
  gb <- memory_gb total ;;
  ret (py "<b>Memory</b>: " ++ str_of_int gb ++ py " GB")%list.

Local Close Scope Z_scope.

(** ** The dialogs *)

Definition DARK_STYLE : str := py "background-color: #1E1E1E; color: white;".
Definition LIGHT_STYLE : str := py "background-color: white; color: black;".

(** [platform.processor() or "Unknown CPU"] *)
Definition cpu_info (w : world) : str :=
  if truthy (platform_processor w) then platform_processor w else py "Unknown CPU".

(** [platform.system() + " " + platform.release()] *)
Definition os_info (w : world) : str :=
  platform_system w ++ py " " ++ platform_release w.

(** A callable connected to a signal.  The only one the program connects is
    the bound method [update_dark_mode] of the [AboutThisMac] dialog. *)
Inductive receiver : Type :=
| update_dark_mode_of_parent.

(** [signal.emit(arg)]: one synchronous call per connected receiver, in
    connection order. *)
Definition emit (signal : list receiver) (arg : bool) : list (receiver * bool) :=
  map (fun r => (r, arg)) signal.

Module MoreInfoWindow.

(** [dark_mode_changed] holds the receivers connected to the signal;
    [visible] tells whether the dialog is on screen (inside [exec_]). *)
Record t := mk {
  dark_mode : bool;
  styleSheet : str;
  labels : list str;
  dark_mode_changed : list receiver;
  visible : bool
}.

Definition apply_dark_mode (self : t) : t :=
  if dark_mode self
  then mk (dark_mode self) DARK_STYLE (labels self) (dark_mode_changed self) (visible self)
  else mk (dark_mode self) LIGHT_STYLE (labels self) (dark_mode_changed self) (visible self).

(** Lines 88-89: [f"<b>{title}:</b> {value}"]. *)
Definition info_label (item : str * str) : str :=
  py "<b>" ++ fst item ++ py ":</b> " ++ snd item.

(** Lines 49-109. *)
Definition __init__ (w : world) (dark_mode : bool) : M t :=
  let self := apply_dark_mode (mk dark_mode [] [] [] false) in
  let os_version := os_info w in
  let cpu_info := cpu_info w in
  memory_info <- memory_info w ;;
  let info_texts :=
    [ (py "macOS Version", os_version);
      (py "Chip", cpu_info);
      (py "Memory", memory_info);
      (py "Startup Disk", py "System Drive");
      (py "Display", py "Unknown Display");
      (py "Graphics", py "Unknown GPU");
      (py "Bootloader", py "UEFI") ] in
  ret (mk (MoreInfoWindow.dark_mode self) (styleSheet self)
          (map info_label info_texts) (dark_mode_changed self) (visible self)).

(** [self.dark_mode_changed.connect(r)] *)
Definition connect (r : receiver) (self : t) : t :=
  mk (dark_mode self) (styleSheet self) (labels self)
     (dark_mode_changed self ++ [r]) (visible self).

Definition set_visible (v : bool) (self : t) : t :=
  mk (dark_mode self) (styleSheet self) (labels self) (dark_mode_changed self) v.

(** Lines 111-114.  The second component lists the calls the emission
    makes: each connected receiver with the emitted argument. *)
Definition toggle_dark_mode (self : t) : t * list (receiver * bool) :=
  let self := mk (negb (dark_mode self)) (styleSheet self) (labels self)
                 (dark_mode_changed self) (visible self) in
  let self := apply_dark_mode self in
  (self, emit (dark_mode_changed self) (dark_mode self)).

End MoreInfoWindow.

Module AboutThisMac.

Record t := mk {
  dark_mode : bool;
  styleSheet : str;
  mac_title : str;
  labels : list str;
  more_info_window : option MoreInfoWindow.t
}.

Definition set_more_info_window (win : MoreInfoWindow.t) (self : t) : t :=
  mk (dark_mode self) (styleSheet self) (mac_title self) (labels self) (Some win).

Definition apply_dark_mode (self : t) : t :=
  if dark_mode self
  then mk (dark_mode self) DARK_STYLE (mac_title self) (labels self) (more_info_window self)
  else mk (dark_mode self) LIGHT_STYLE (mac_title self) (labels self) (more_info_window self).

(** Lines 123-195. *)
Definition __init__ (w : world) : M t :=
  let dark_mode := false in
  mb_name <- get_motherboard_name w ;;
  let cpu_info := cpu_info w in
  memory_label <- memory_label w ;;
  let os_info := os_info w in
  let serial_number := py "X0ZYZ1ZYZX" in
  let startup_disk := py "System Drive" in
  ret (mk dark_mode [] mb_name
          [ py "<b>Chip</b>: " ++ cpu_info;
            memory_label;
            py "<b>Startup disk</b>: " ++ startup_disk;
            py "<b>Serial number</b>: " ++ serial_number;
            py "<b>OS</b>: " ++ os_info ]
          None).

(** Lines 202-204. *)
Definition update_dark_mode (self : t) (dark_mode : bool) : t :=
  apply_dark_mode
    (mk dark_mode (styleSheet self) (mac_title self) (labels self) (more_info_window self)).

(** Lines 206-208; no widget of the program is connected to it. *)
Definition toggle_dark_mode (self : t) : t :=
  apply_dark_mode
    (mk (negb (dark_mode self)) (styleSheet self) (mac_title self) (labels self)
        (more_info_window self)).

(** Lines 197-200.  [exec_] shows the dialog and runs its event loop; the
    events it then handles are the steps below. *)
Definition show_more_info (w : world) (self : t) : M t :=
  win <- MoreInfoWindow.__init__ w (dark_mode self) ;;
  let win := MoreInfoWindow.connect update_dark_mode_of_parent win in
  let win := MoreInfoWindow.set_visible true win in
  ret (set_more_info_window win self).

(** One call made by an emission of the child's signal. *)
Definition call (self : t) (c : receiver * bool) : t :=
  match fst c with
  | update_dark_mode_of_parent => update_dark_mode self (snd c)
  end.

(** A press of the secondary dialog's toggle button: the child's
    [toggle_dark_mode] runs, and its emission calls the receivers before
    it returns.  The emitted calls are returned with the new state. *)
Definition press_toggle (self : t) : t * list (receiver * bool) :=
  match more_info_window self with
  | Some win =>
      let (win', calls) := MoreInfoWindow.toggle_dark_mode win in
      (fold_left call calls (set_more_info_window win' self), calls)
  | None => (self, [])
  end.

(** The secondary dialog is closed: [exec_] returns. *)
Definition close_more_info (self : t) : t :=
  match more_info_window self with
  | Some win => set_more_info_window (MoreInfoWindow.set_visible false win) self
  | None => self
  end.

Definition more_info_visible (self : t) : bool :=
  match more_info_window self with
  | Some win => MoreInfoWindow.visible win
  | None => false
  end.

End AboutThisMac.

(** The user's actions.  The secondary dialog is modal: while it is visible
    the primary dialog's button receives no click, and the toggle button
    exists only while the secondary dialog is visible. *)
Inductive event : Type :=
| click_more_info
| click_toggle_dark_mode
| close_dialog.

Definition step (w : world) (a : AboutThisMac.t) (ev : event) : M AboutThisMac.t :=
  match ev with
  | click_more_info =>
      if AboutThisMac.more_info_visible a then ret a
      else AboutThisMac.show_more_info w a
  | click_toggle_dark_mode =>
      if AboutThisMac.more_info_visible a then ret (fst (AboutThisMac.press_toggle a))
      else ret a
  | close_dialog => ret (AboutThisMac.close_more_info a)
  end.

(** The states the program reaches: construction of the primary dialog,
    then any sequence of actions whose handlers return. *)
Inductive reachable (w : world) : AboutThisMac.t -> Prop :=
| reach_init a : AboutThisMac.__init__ w = inr a -> reachable w a
| reach_step a ev a' : reachable w a -> step w a ev = inr a' -> reachable w a'.

(** [n] presses of the toggle button. *)
Fixpoint press_toggle_n (n : nat) (a : AboutThisMac.t) : AboutThisMac.t :=
  match n with
  | O => a
  | S n' => press_toggle_n n' (fst (AboutThisMac.press_toggle a))
  end.

(** The handlers of a sequence of actions, one after the other. *)
Fixpoint run (w : world) (a : AboutThisMac.t) (evs : list event) : M AboutThisMac.t :=
  match evs with
  | [] => ret a
  | ev :: rest => a' <- step w a ev ;; run w a' rest
  end.

(** ** The specification's words, for comparison with the code *)

(** A line that [strip] empties. *)
Definition isblank (line : str) : bool := negb (truthy (strip line)).

(** "The second line of that output", or the fallback when there is none. *)
Definition second_line_or_fallback (output : str) : str :=
  match nth_error (splitlines output) 1 with
  | Some line => line
  | None => UNKNOWN_BOARD
  end.

(** [gb] is a whole number of gigabytes nearest to [total] bytes. *)
Definition is_nearest_gb (total gb : Z) : Prop :=
  forall k : Z, (Z.abs (total - gb * GiB) <= Z.abs (total - k * GiB))%Z.

(** The secondary dialog of [a] exists, is connected to the primary
    dialog's [update_dark_mode] and carries the primary dialog's flag. *)
Definition synced (a : AboutThisMac.t) : Prop :=
  exists win,
    AboutThisMac.more_info_window a = Some win /\
    MoreInfoWindow.dark_mode_changed win = [update_dark_mode_of_parent] /\
    MoreInfoWindow.dark_mode win = AboutThisMac.dark_mode a.

(** ** Sample platforms *)

Definition CR : char := 13%N.
Definition LF : char := 10%N.

(** What [wmic baseboard get product] prints: a header and the product,
    padded with spaces, each line ended by CR CR LF. *)
Definition wmic_sample_output : str :=
  py "Product  " ++ [CR; CR; LF] ++ py "X570 AORUS ELITE WIFI REV 1.2  "
  ++ [CR; CR; LF; CR; CR; LF].

(** A Windows host. *)
Definition windows_host : world := {|
  platform_system := py "Windows";
  platform_release := py "10";
  platform_processor := py "AMD64 Family 23 Model 113 Stepping 0, AuthenticAMD";
  wmic_output := inr wmic_sample_output;
  open_board_name := inl FileNotFoundError;
  read_board_name := inl FileNotFoundError;
  virtual_memory_total := inr 17095315456%Z
|}.

(** A Linux host with a board name. *)
Definition linux_host : world := {|
  platform_system := py "Linux";
  platform_release := py "6.8.0";
  platform_processor := py "x86_64";
  wmic_output := inl (CalledProcessError 127);
  open_board_name := inr tt;
  read_board_name := inr (py "B550M DS3H" ++ [LF]);
  virtual_memory_total := inr 2147483647%Z
|}.

(** A Linux host whose [board_name] file holds an empty line, as on virtual
    machines that report no board. *)
Definition linux_blank_host : world := {|
  platform_system := py "Linux";
  platform_release := py "6.8.0";
  platform_processor := [];
  wmic_output := inl (CalledProcessError 127);
  open_board_name := inr tt;
  read_board_name := inr [LF];
  virtual_memory_total := inr 1073741824%Z
|}.

(** A Linux host whose [board_name] file is empty. *)
Definition linux_empty_host : world := {|
  platform_system := py "Linux";
  platform_release := py "6.8.0";
  platform_processor := [];
  wmic_output := inl (CalledProcessError 127);
  open_board_name := inr tt;
  read_board_name := inr [];
  virtual_memory_total := inr 1073741824%Z
|}.

(** The value a computation returns, [d] if it raises. *)
Definition returned {A} (d : A) (m : M A) : A :=
  match m with
  | inr v => v
  | inl _ => d
  end.

Definition no_dialog : AboutThisMac.t := AboutThisMac.mk false [] [] [] None.

(** The primary dialog as constructed on [linux_host]; the same with the
    secondary dialog opened; after one press of the toggle button; and with
    the secondary dialog then closed and opened again. *)
Definition linux_primary : AboutThisMac.t :=
  Eval cbv in returned no_dialog (AboutThisMac.__init__ linux_host).

Definition linux_opened : AboutThisMac.t :=
  Eval cbv in returned no_dialog (AboutThisMac.show_more_info linux_host linux_primary).

Definition linux_toggled : AboutThisMac.t :=
  Eval cbv in fst (AboutThisMac.press_toggle linux_opened).

Definition linux_reopened : AboutThisMac.t :=
  Eval cbv in
    returned no_dialog
      (AboutThisMac.show_more_info linux_host (AboutThisMac.close_more_info linux_toggled)).

(** ** Further sample platforms and notions *)

(** The style sheet [apply_dark_mode] sets for a flag. *)
Definition style_of (flag : bool) : str :=
  if flag then DARK_STYLE else LIGHT_STYLE.

(** A line the Windows branch keeps. *)
Definition nonblank (line : str) : bool := negb (isblank line).

(** No character of [s] ends a line. *)
Definition single_line (s : str) : Prop :=
  Forall (fun c => islinebreak c = false) s.

(** A Windows host on which the command exits with status 1. *)
Definition windows_failed_host : world := {|
  platform_system := py "Windows";
  platform_release := py "11";
  platform_processor := py "Intel64 Family 6";
  wmic_output := inl (CalledProcessError 1);
  open_board_name := inl FileNotFoundError;
  read_board_name := inl FileNotFoundError;
  virtual_memory_total := inr 8589934592%Z
|}.

(** A Windows host on which the command prints its header only. *)
Definition windows_header_host : world := {|
  platform_system := py "Windows";
  platform_release := py "11";
  platform_processor := py "Intel64 Family 6";
  wmic_output := inr (py "Product  " ++ [CR; CR; LF; CR; CR; LF]);
  open_board_name := inl FileNotFoundError;
  read_board_name := inl FileNotFoundError;
  virtual_memory_total := inr 8589934592%Z
|}.


(** A Linux host on which the interpreter is asked to exit while the file
    is read. *)
Definition linux_exiting_host : world := {|
  platform_system := py "Linux";
  platform_release := py "6.8.0";
  platform_processor := py "x86_64";
  wmic_output := inl (CalledProcessError 127);
  open_board_name := inr tt;
  read_board_name := inl (SystemExit 0);
  virtual_memory_total := inr 8589934592%Z
|}.

(** A Linux host that refuses to open the file. *)
Definition linux_denied_host : world := {|
  platform_system := py "Linux";
  platform_release := py "6.8.0";
  platform_processor := py "x86_64";
  wmic_output := inl (CalledProcessError 127);
  open_board_name := inl PermissionError;
  read_board_name := inl PermissionError;
  virtual_memory_total := inr 8589934592%Z
|}.

(** A Linux host without the file. *)
Definition linux_missing_host : world := {|
  platform_system := py "Linux";
  platform_release := py "6.8.0";
  platform_processor := py "x86_64";
  wmic_output := inl (CalledProcessError 127);
  open_board_name := inl FileNotFoundError;
  read_board_name := inl FileNotFoundError;
  virtual_memory_total := inr 8589934592%Z
|}.

(** A macOS host: the command would answer, the file would read. *)
Definition darwin_host : world := {|
  platform_system := py "Darwin";
  platform_release := py "23.4.0";
  platform_processor := py "arm";
  wmic_output := inr wmic_sample_output;
  open_board_name := inr tt;
  read_board_name := inr (py "B550M DS3H" ++ [LF]);
  virtual_memory_total := inr 17179869184%Z
|}.

(** A Linux host on which the memory query raises. *)
Definition no_memory_host : world := {|
  platform_system := py "Linux";
  platform_release := py "6.8.0";
  platform_processor := py "x86_64";
  wmic_output := inl (CalledProcessError 127);
  open_board_name := inr tt;
  read_board_name := inr (py "B550M DS3H" ++ [LF]);
  virtual_memory_total := inl (OtherException "AccessDenied")
|}.

(** What every reachable state satisfies: the primary dialog's style sheet
    is the one of its flag, or was never set while the flag is still false;
    a secondary dialog carries the primary dialog's flag, the style sheet of
    that flag and exactly one receiver. *)
Definition consistent (a : AboutThisMac.t) : Prop :=
  (AboutThisMac.styleSheet a = style_of (AboutThisMac.dark_mode a) \/
   (AboutThisMac.styleSheet a = [] /\ AboutThisMac.dark_mode a = false)) /\
  forall win,
    AboutThisMac.more_info_window a = Some win ->
    MoreInfoWindow.dark_mode win = AboutThisMac.dark_mode a /\
    MoreInfoWindow.styleSheet win = style_of (MoreInfoWindow.dark_mode win) /\
    MoreInfoWindow.dark_mode_changed win = [update_dark_mode_of_parent].

(** The clicks on the toggle button that are handled in a sequence of
    actions: those made while the secondary dialog is on screen.  [vis] tells
    whether it is on screen before the first action. *)
Fixpoint handled_toggles (vis : bool) (evs : list event) : nat :=
  match evs with
  | [] => 0
  | click_more_info :: rest => handled_toggles true rest
  | close_dialog :: rest => handled_toggles false rest
  | click_toggle_dark_mode :: rest =>
      if vis then S (handled_toggles vis rest) else handled_toggles vis rest
  end.

(** * Properties *)

(** ** Shortening *)

Lemma shorten_short (s : str) : length s <= 20 -> shorten s = s.
Proof.
  intros H. unfold shorten.
  destruct (Nat.ltb_spec 20 (length s)); [lia | reflexivity].
Qed.

Lemma shorten_long (s : str) :
  20 < length s -> shorten s = firstn 20 s ++ py "...".
Proof.
  intros H. unfold shorten.
  destruct (Nat.ltb_spec 20 (length s)); [reflexivity | lia].
Qed.

Lemma length_shorten_long (s : str) : 20 < length s -> length (shorten s) = 23.
Proof.
  intros H. rewrite (shorten_long s H), length_app, length_firstn.
  change (length (py "...")) with 3. lia.
Qed.

Lemma length_shorten_le (s : str) : length (shorten s) <= 23.
Proof.
  destruct (Nat.le_gt_cases (length s) 20) as [H | H].
  - rewrite (shorten_short s H). lia.
  - rewrite (length_shorten_long s H). lia.
Qed.

Lemma shorten_nil (s : str) : shorten s = [] -> s = [].
Proof.
  destruct (Nat.le_gt_cases (length s) 20) as [H | H].
  - now rewrite (shorten_short s H).
  - intros E. pose proof (length_shorten_long s H) as L.
    rewrite E in L. discriminate L.
Qed.

(** ** The handlers *)

(** [FileNotFoundError] is an [Exception]: what the inner handler lets
    through and the outer handler lets through too was raised as neither. *)
Lemma isinstance_FileNotFoundError_Exception (e : exn) :
  isinstance_FileNotFoundError e = true -> isinstance_Exception e = true.
Proof. destruct e; simpl; congruence. Qed.

Lemma try_except_returned {A} (v : A) cls handler :
  try_except (inr v) cls handler = inr v.
Proof. reflexivity. Qed.

Lemma try_except_caught {A} (e : exn) cls (handler : M A) :
  cls e = true -> try_except (inl e) cls handler = handler.
Proof. intros H. unfold try_except. simpl. now rewrite H. Qed.

Lemma try_except_uncaught {A} (e : exn) cls (handler : M A) :
  cls e = false -> try_except (inl e) cls handler = inl e.
Proof. intros H. unfold try_except. simpl. now rewrite H. Qed.

(** The helper returns the shortened raw name when the lookup returns one,
    the fallback when the lookup raises an instance of [Exception], and lets
    any other exception through. *)
Lemma get_motherboard_name_returned (w : world) (name : str) :
  raw_board_name w = inr name -> get_motherboard_name w = inr (shorten name).
Proof.
  intros H. unfold get_motherboard_name, get_motherboard_name_body.
  rewrite H. reflexivity.
Qed.

Lemma get_motherboard_name_handled (w : world) (e : exn) :
  raw_board_name w = inl e ->
  get_motherboard_name w
  = if isinstance_Exception e then inr UNKNOWN_BOARD else inl e.
Proof.
  intros H. unfold get_motherboard_name, get_motherboard_name_body.
  rewrite H. simpl bind.
  destruct (isinstance_Exception e) eqn:C.
  - now apply try_except_caught.
  - now apply try_except_uncaught.
Qed.


(** A returned name is the shortened raw name or the fallback. *)
Lemma get_motherboard_name_inversion (w : world) (name : str) :
  get_motherboard_name w = inr name ->
  (exists raw, raw_board_name w = inr raw /\ name = shorten raw) \/
  name = UNKNOWN_BOARD.
Proof.
  intros H. destruct (raw_board_name w) as [e | raw] eqn:E.
  - rewrite (get_motherboard_name_handled w e E) in H.
    destruct (isinstance_Exception e); [| discriminate H].
    injection H as <-. now right.
  - rewrite (get_motherboard_name_returned w raw E) in H.
    injection H as <-. left. now exists raw.
Qed.

Example UNKNOWN_BOARD_not_shortened :
  length UNKNOWN_BOARD = 13 /\ shorten UNKNOWN_BOARD = UNKNOWN_BOARD.
Proof. split; reflexivity. Qed.

(** C1: the shortening step of [get_motherboard_name] returns a name of at
    most 20 characters unchanged, and turns a longer name into its first 20
    characters followed by ["..."], 23 characters in all; the helper returns
    the shortened form of the name its lookup found. *)
Theorem shortening_spec (name : str) :
  (length name <= 20 -> shorten name = name) /\
  (20 < length name ->
     shorten name = firstn 20 name ++ py "..." /\ length (shorten name) = 23) /\
  (forall w, raw_board_name w = inr name ->
     get_motherboard_name w = inr (shorten name)).
Proof.
  split; [apply shorten_short |].
  split.
  - intros H. split; [now apply shorten_long | now apply length_shorten_long].
  - intros w. apply get_motherboard_name_returned.
Qed.

Lemma shortening_spec_witness :
  (length (py "B550M DS3H") <= 20 /\
   shorten (py "B550M DS3H") = py "B550M DS3H") /\
  (20 < length (py "X570 AORUS ELITE WIFI REV 1.2") /\
   shorten (py "X570 AORUS ELITE WIFI REV 1.2") = py "X570 AORUS ELITE WIF..." /\
   length (shorten (py "X570 AORUS ELITE WIFI REV 1.2")) = 23) /\
  (raw_board_name linux_host = inr (py "B550M DS3H") /\
   get_motherboard_name linux_host = inr (py "B550M DS3H")).
Proof.
  assert (Hshort : length (py "B550M DS3H") <= 20) by (vm_compute; lia).
  assert (Hlong : 20 < length (py "X570 AORUS ELITE WIFI REV 1.2"))
    by (vm_compute; lia).
  split; [split; [exact Hshort |] | split; [split; [exact Hlong |] | split]].
  - exact (proj1 (shortening_spec (py "B550M DS3H")) Hshort).
  - exact (proj1 (proj2 (shortening_spec (py "X570 AORUS ELITE WIFI REV 1.2"))) Hlong).
  - reflexivity.
  - exact (proj2 (proj2 (shortening_spec (py "B550M DS3H"))) linux_host eq_refl).
Defined.

(** C9: the string [get_motherboard_name] returns has at most 23
    characters. *)
Theorem get_motherboard_name_length (w : world) (name : str) :
  get_motherboard_name w = inr name -> length name <= 23.
Proof.
  intros H.
  destruct (get_motherboard_name_inversion w name H) as [(raw & _ & ->) | ->].
  - apply length_shorten_le.
  - vm_compute. lia.
Qed.

Lemma get_motherboard_name_length_witness :
  get_motherboard_name windows_host = inr (py "X570 AORUS ELITE WIF...") /\
  length (py "X570 AORUS ELITE WIF...") <= 23.
Proof.
  split; [reflexivity |].
  exact (get_motherboard_name_length windows_host (py "X570 AORUS ELITE WIF...")
           eq_refl).
Defined.

(** ** The lookup, branch by branch *)

Lemma raw_board_name_windows (w : world) :
  platform_system w = py "Windows" ->
  raw_board_name w = windows_board_name w UNKNOWN_BOARD.
Proof. intros H. unfold raw_board_name. now rewrite H. Qed.

Lemma raw_board_name_linux (w : world) :
  platform_system w = py "Linux" ->
  raw_board_name w = linux_board_name w UNKNOWN_BOARD.
Proof. intros H. unfold raw_board_name. now rewrite H. Qed.

Lemma raw_board_name_other (w : world) :
  str_eqb (platform_system w) (py "Windows") = false ->
  str_eqb (platform_system w) (py "Linux") = false ->
  raw_board_name w = inr UNKNOWN_BOARD.
Proof. intros H1 H2. unfold raw_board_name. now rewrite H1, H2. Qed.

Lemma stripped_lines_nonempty (output : str) :
  Forall (fun line => line <> []) (stripped_lines output).
Proof.
  unfold stripped_lines. apply Forall_map, Forall_forall.
  intros line Hin. apply filter_In in Hin. destruct Hin as [_ Ht].
  intros E. rewrite E in Ht. discriminate Ht.
Qed.

(** The Windows branch on an output with at least two stripped lines, and
    with fewer. *)
Lemma windows_board_name_lines (w : world) (output d : str) :
  wmic_output w = inr output ->
  windows_board_name w d =
    inr match stripped_lines output with
        | _ :: second :: _ => second
        | _ => d
        end.
Proof.
  intros H. unfold windows_board_name. rewrite H. simpl bind.
  destruct (stripped_lines output) as [| first [| second rest]]; reflexivity.
Qed.

Lemma windows_board_name_raised (w : world) (e : exn) (d : str) :
  wmic_output w = inl e -> windows_board_name w d = inl e.
Proof. intros H. unfold windows_board_name. now rewrite H. Qed.

Lemma windows_board_name_nonempty (w : world) (d name : str) :
  windows_board_name w d = inr name -> name = d \/ name <> [].
Proof.
  destruct (wmic_output w) as [e | output] eqn:E.
  - rewrite (windows_board_name_raised w e d E). discriminate.
  - rewrite (windows_board_name_lines w output d E).
    pose proof (stripped_lines_nonempty output) as F.
    destruct (stripped_lines output) as [| first [| second rest]];
      intros H; injection H as <-; auto.
    right. inversion F as [| ? ? _ F']. now inversion F'.
Qed.

(** The Linux branch, outcome by outcome. *)
Lemma linux_board_name_read (w : world) (content d : str) :
  open_board_name w = inr tt -> read_board_name w = inr content ->
  linux_board_name w d = inr (strip content).
Proof. intros Ho Hr. unfold linux_board_name. now rewrite Ho, Hr. Qed.

Lemma linux_board_name_open_raised (w : world) (e : exn) (d : str) :
  open_board_name w = inl e ->
  linux_board_name w d = if isinstance_FileNotFoundError e then inr d else inl e.
Proof.
  intros Ho. unfold linux_board_name. rewrite Ho. simpl bind.
  destruct (isinstance_FileNotFoundError e) eqn:C.
  - now apply try_except_caught.
  - now apply try_except_uncaught.
Qed.

Lemma linux_board_name_read_raised (w : world) (e : exn) (d : str) :
  open_board_name w = inr tt -> read_board_name w = inl e ->
  linux_board_name w d = if isinstance_FileNotFoundError e then inr d else inl e.
Proof.
  intros Ho Hr. unfold linux_board_name. rewrite Ho, Hr. simpl bind.
  destruct (isinstance_FileNotFoundError e) eqn:C.
  - now apply try_except_caught.
  - now apply try_except_uncaught.
Qed.

(** An exception of the command or of the file ends in the fallback
    constant when it is an instance of [Exception], and leaves the helper
    otherwise. *)
Lemma command_failure_handled (w : world) (e : exn) :
  platform_system w = py "Windows" -> wmic_output w = inl e ->
  get_motherboard_name w
  = if isinstance_Exception e then inr UNKNOWN_BOARD else inl e.
Proof.
  intros Hs Hc. apply get_motherboard_name_handled.
  rewrite (raw_board_name_windows w Hs). now apply windows_board_name_raised.
Qed.

Lemma file_failure_handled (w : world) (e : exn) :
  platform_system w = py "Linux" ->
  open_board_name w = inl e \/ (open_board_name w = inr tt /\ read_board_name w = inl e) ->
  get_motherboard_name w
  = if isinstance_Exception e then inr UNKNOWN_BOARD else inl e.
Proof.
  intros Hs H.
  assert (L : linux_board_name w UNKNOWN_BOARD
              = if isinstance_FileNotFoundError e then inr UNKNOWN_BOARD else inl e).
  { destruct H as [Ho | [Ho Hr]].
    - now apply linux_board_name_open_raised.
    - now apply linux_board_name_read_raised. }
  destruct (isinstance_FileNotFoundError e) eqn:C.
  - rewrite (isinstance_FileNotFoundError_Exception e C).
    rewrite (get_motherboard_name_returned w UNKNOWN_BOARD); [reflexivity |].
    now rewrite (raw_board_name_linux w Hs).
  - apply get_motherboard_name_handled.
    now rewrite (raw_board_name_linux w Hs).
Qed.

Lemma command_failure_fallback (w : world) (e : exn) :
  platform_system w = py "Windows" -> wmic_output w = inl e ->
  isinstance_Exception e = true ->
  get_motherboard_name w = inr UNKNOWN_BOARD.
Proof.
  intros Hs Hc C. rewrite (command_failure_handled w e Hs Hc). now rewrite C.
Qed.

Lemma file_failure_fallback (w : world) (e : exn) :
  platform_system w = py "Linux" ->
  open_board_name w = inl e \/ (open_board_name w = inr tt /\ read_board_name w = inl e) ->
  isinstance_Exception e = true ->
  get_motherboard_name w = inr UNKNOWN_BOARD.
Proof.
  intros Hs H C. rewrite (file_failure_handled w e Hs H). now rewrite C.
Qed.

(** A command output with fewer than two non-blank lines ends in the
    fallback constant. *)
Lemma command_no_data_fallback (w : world) (output : str) :
  platform_system w = py "Windows" -> wmic_output w = inr output ->
  length (stripped_lines output) <= 1 ->
  get_motherboard_name w = inr UNKNOWN_BOARD.
Proof.
  intros Hs Hc Hl.
  rewrite (get_motherboard_name_returned w UNKNOWN_BOARD); [reflexivity |].
  rewrite (raw_board_name_windows w Hs), (windows_board_name_lines w output _ Hc).
  destruct (stripped_lines output) as [| first [| second rest]];
    [reflexivity | reflexivity | simpl in Hl; lia].
Qed.

Lemma other_platform_fallback (w : world) :
  str_eqb (platform_system w) (py "Windows") = false ->
  str_eqb (platform_system w) (py "Linux") = false ->
  get_motherboard_name w = inr UNKNOWN_BOARD.
Proof.
  intros H1 H2.
  rewrite (get_motherboard_name_returned w UNKNOWN_BOARD); [reflexivity |].
  now apply raw_board_name_other.
Qed.

Lemma str_eqb_eq (a b : str) : str_eqb a b = true -> a = b.
Proof.
  revert b. induction a as [| x a IH]; intros [| y b] H; try discriminate H.
  - reflexivity.
  - simpl in H. apply andb_prop in H. destruct H as [Hx Hr].
    apply N.eqb_eq in Hx. subst y. f_equal. now apply IH.
Qed.

(** The helper returns the empty string in one situation only: on Linux,
    when the [board_name] file is read and holds nothing but white space. *)
Lemma get_motherboard_name_empty (w : world) :
  get_motherboard_name w = inr [] ->
  platform_system w = py "Linux" /\
  exists content,
    open_board_name w = inr tt /\ read_board_name w = inr content /\
    strip content = [].
Proof.
  intros H.
  destruct (get_motherboard_name_inversion w [] H) as [(raw & E & Hn) | Hn];
    [| discriminate Hn].
  symmetry in Hn. apply shorten_nil in Hn. subst raw.
  unfold raw_board_name in E.
  destruct (str_eqb (platform_system w) (py "Windows")) eqn:Hw.
  { apply windows_board_name_nonempty in E.
    destruct E as [E | E]; [discriminate E | now elim E]. }
  destruct (str_eqb (platform_system w) (py "Linux")) eqn:Hl;
    [| discriminate E].
  split; [now apply str_eqb_eq |].
  destruct (open_board_name w) as [e | []] eqn:Ho.
  { rewrite (linux_board_name_open_raised w e _ Ho) in E.
    destruct (isinstance_FileNotFoundError e); discriminate E. }
  destruct (read_board_name w) as [e | content] eqn:Hr.
  { rewrite (linux_board_name_read_raised w e _ Ho Hr) in E.
    destruct (isinstance_FileNotFoundError e); discriminate E. }
  rewrite (linux_board_name_read w content _ Ho Hr) in E.
  injection E as E. exists content. auto.
Qed.





(** C2: on a Linux host whose [board_name] file is empty the lookup returns
    no usable data, yet [get_motherboard_name] returns the empty string, not
    the fallback constant. *)
Theorem empty_board_file_not_fallback :
  get_motherboard_name linux_empty_host = inr [] /\
  get_motherboard_name linux_empty_host <> inr UNKNOWN_BOARD.
Proof. split; [reflexivity | discriminate]. Qed.

(** C6: on a Linux host whose [board_name] file holds only a line break the
    primary dialog is constructed with an empty title. *)
Theorem blank_board_file_empty_title :
  exists a, AboutThisMac.__init__ linux_blank_host = inr a /\
            AboutThisMac.mac_title a = [].
Proof. eexists. split; reflexivity. Qed.

(** ** The Windows branch: which line is taken *)

Lemma filter_nil_Forall {A} (p : A -> bool) (l : list A) :
  filter p l = [] -> Forall (fun a => p a = false) l.
Proof.
  induction l as [| a l IH]; simpl; intros H; [constructor |].
  destruct (p a) eqn:Pa; [discriminate H |].
  constructor; auto.
Qed.

Lemma filter_cons_split {A} (p : A -> bool) (l : list A) (x : A) (r : list A) :
  filter p l = x :: r ->
  exists pre post,
    l = pre ++ x :: post /\ Forall (fun a => p a = false) pre /\
    p x = true /\ filter p post = r.
Proof.
  induction l as [| a l IH]; simpl; intros H; [discriminate H |].
  destruct (p a) eqn:Pa.
  - injection H as Ha Hr. subst a. exists [], l. repeat split; auto.
  - destruct (IH H) as (pre & post & -> & Fpre & Px & Fr).
    exists (a :: pre), post. repeat split; auto.
Qed.

Lemma isblank_true (line : str) :
  truthy (strip line) = false -> isblank line = true.
Proof. intros H. unfold isblank. now rewrite H. Qed.

Lemma isblank_false (line : str) :
  truthy (strip line) = true -> isblank line = false.
Proof. intros H. unfold isblank. now rewrite H. Qed.

Lemma Forall_isblank (l : list str) :
  Forall (fun line => truthy (strip line) = false) l ->
  Forall (fun line => isblank line = true) l.
Proof. apply Forall_impl. intros line. apply isblank_true. Qed.

(** C5, as the code has it: on the Windows branch the name taken from the
    command's output is its second non-blank line with the surrounding white
    space stripped; blank lines before and between are skipped, and an output
    with fewer than two non-blank lines leaves the fallback constant. *)
Theorem windows_second_nonblank_line (w : world) (output : str) :
  platform_system w = py "Windows" ->
  wmic_output w = inr output ->
  (Forall (fun line => isblank line = true) (splitlines output) /\
   raw_board_name w = inr UNKNOWN_BOARD)
  \/
  (exists pre first post,
     splitlines output = pre ++ first :: post /\
     Forall (fun line => isblank line = true) pre /\
     isblank first = false /\
     Forall (fun line => isblank line = true) post /\
     raw_board_name w = inr UNKNOWN_BOARD)
  \/
  (exists pre first mid second post,
     splitlines output = pre ++ first :: mid ++ second :: post /\
     Forall (fun line => isblank line = true) pre /\
     isblank first = false /\
     Forall (fun line => isblank line = true) mid /\
     isblank second = false /\
     raw_board_name w = inr (strip second)).
Proof.
  intros Hs Hc.
  rewrite (raw_board_name_windows w Hs), (windows_board_name_lines w output _ Hc).
  unfold stripped_lines.
  destruct (filter (fun line => truthy (strip line)) (splitlines output))
    as [| x r] eqn:F.
  { left. split; [| reflexivity].
    now apply Forall_isblank, filter_nil_Forall. }
  right.
  apply filter_cons_split in F.
  destruct F as (pre & rest & E & Fpre & Px & F).
  destruct r as [| y r].
  { left. exists pre, x, rest. repeat split; auto using Forall_isblank, isblank_false.
    now apply Forall_isblank, filter_nil_Forall. }
  right.
  apply filter_cons_split in F.
  destruct F as (mid & post & E' & Fmid & Py & _).
  exists pre, x, mid, y, post. subst rest.
  repeat split; auto using Forall_isblank, isblank_false.
Qed.

Lemma windows_second_nonblank_line_witness :
  platform_system windows_host = py "Windows" /\
  wmic_output windows_host = inr wmic_sample_output /\
  exists pre first mid second post,
    splitlines wmic_sample_output = pre ++ first :: mid ++ second :: post /\
    strip second = py "X570 AORUS ELITE WIFI REV 1.2" /\
    raw_board_name windows_host = inr (strip second).
Proof.
  split; [reflexivity |]. split; [reflexivity |].
  destruct (windows_second_nonblank_line windows_host wmic_sample_output
              eq_refl eq_refl)
    as [[_ H] | [(pre & first & post & _ & _ & _ & _ & H)
                | (pre & first & mid & second & post & E & _ & _ & _ & _ & H)]];
    try discriminate H.
  exists pre, first, mid, second, post. repeat split; auto.
  change (raw_board_name windows_host)
    with (@inr exn str (py "X570 AORUS ELITE WIFI REV 1.2")) in H.
  now injection H.
Defined.

(** C5, as the specification words it, fails on what [wmic] prints: the second line
    of that output is empty (CR CR LF ends two lines), and the code takes
    the product line after it. *)
Lemma windows_second_line_counterexample :
  wmic_output windows_host = inr wmic_sample_output /\
  second_line_or_fallback wmic_sample_output = [] /\
  raw_board_name windows_host = inr (py "X570 AORUS ELITE WIFI REV 1.2") /\
  raw_board_name windows_host <> inr (second_line_or_fallback wmic_sample_output).
Proof. repeat split; try reflexivity. discriminate. Qed.

(** ** The memory label *)

Local Open Scope Z_scope.

Lemma round53_exact (n : Z) : n < 2 ^ 53 -> round53 n = n.
Proof.
  intros H. unfold round53.
  destruct (Z.ltb_spec n (2 ^ 53)); [reflexivity | lia].
Qed.

Lemma truediv_GiB_exact (total : Z) :
  0 <= total < 2 ^ 53 -> truediv_GiB total = inr total.
Proof.
  intros [H0 H1]. unfold truediv_GiB.
  rewrite (Z.abs_eq total H0), (round53_exact total H1).
  assert (E : Z.sgn total * total = total).
  { rewrite <- (Z.abs_eq total H0) at 2. rewrite Z.mul_comm. apply Z.abs_sgn. }
  rewrite E, (Z.abs_eq total H0).
  assert (B : 2 ^ 53 < 2 ^ 1024 * GiB) by (vm_compute; reflexivity).
  destruct (Z.leb_spec (2 ^ 1024 * GiB) total); [lia | reflexivity].
Qed.

Lemma memory_gb_floor (total : Z) :
  0 <= total < 2 ^ 53 -> memory_gb total = inr (total / GiB).
Proof.
  intros H. unfold memory_gb. rewrite (truediv_GiB_exact total H). simpl.
  f_equal. apply Z.quot_div_nonneg; [lia | reflexivity].
Qed.

(** Beyond 53 bits the quotient is rounded before it is truncated: one byte
    short of [2^60] is displayed as [2^30] gigabytes. *)
Example memory_gb_rounds_large :
  memory_gb (2 ^ 60 - 1) = inr (2 ^ 30) /\ (2 ^ 60 - 1) / GiB = 2 ^ 30 - 1.
Proof. split; reflexivity. Qed.

(** C3, as the code has it: both dialogs display the total physical memory
    divided by [1024^3] and rounded down to a whole number, for every total
    below [2^53] bytes. *)
Theorem memory_displayed_rounded_down (w : world) (total : Z) :
  virtual_memory_total w = inr total ->
  0 <= total < 2 ^ 53 ->
  memory_info w = inr (str_of_int (total / GiB) ++ py " GB")%list /\
  memory_label w
    = inr (py "<b>Memory</b>: " ++ str_of_int (total / GiB) ++ py " GB")%list.
Proof.
  intros Hv Hr. unfold memory_info, memory_label.
  rewrite Hv. simpl. rewrite (memory_gb_floor total Hr). split; reflexivity.
Qed.

Lemma memory_displayed_rounded_down_witness :
  virtual_memory_total windows_host = inr 17095315456 /\
  0 <= 17095315456 < 2 ^ 53 /\
  memory_info windows_host = inr (py "15 GB") /\
  memory_label windows_host = inr (py "<b>Memory</b>: 15 GB").
Proof.
  split; [reflexivity |]. split; [lia |].
  apply (memory_displayed_rounded_down windows_host 17095315456);
    [reflexivity | lia].
Defined.

(** C3, as the specification words it, fails one byte below two gigabytes: the
    nearest whole number of gigabytes is 2, the value displayed is 1. *)
Lemma memory_not_nearest_counterexample :
  memory_gb 2147483647 = inr 1 /\
  memory_info linux_host = inr (py "1 GB") /\
  ~ is_nearest_gb 2147483647 1.
Proof.
  split; [reflexivity |]. split; [reflexivity |].
  intros H. specialize (H 2). unfold GiB in H. simpl in H. lia.
Qed.

Local Close Scope Z_scope.

(** ** The dark-mode flag *)

Lemma MoreInfoWindow_apply_dark_mode_flag (win : MoreInfoWindow.t) :
  MoreInfoWindow.dark_mode (MoreInfoWindow.apply_dark_mode win)
  = MoreInfoWindow.dark_mode win.
Proof.
  unfold MoreInfoWindow.apply_dark_mode.
  destruct (MoreInfoWindow.dark_mode win) eqn:E; simpl; congruence.
Qed.

Lemma MoreInfoWindow_init_spec (w : world) (flag : bool) (win : MoreInfoWindow.t) :
  MoreInfoWindow.__init__ w flag = inr win ->
  MoreInfoWindow.dark_mode win = flag /\
  MoreInfoWindow.styleSheet win = (if flag then DARK_STYLE else LIGHT_STYLE) /\
  MoreInfoWindow.dark_mode_changed win = [] /\
  MoreInfoWindow.visible win = false.
Proof.
  unfold MoreInfoWindow.__init__.
  destruct (memory_info w) as [e | text]; simpl; intros H; [discriminate H |].
  injection H as <-. destruct flag; repeat split; reflexivity.
Qed.

Lemma show_more_info_spec (w : world) (a a1 : AboutThisMac.t) :
  AboutThisMac.show_more_info w a = inr a1 ->
  exists win,
    AboutThisMac.more_info_window a1 = Some win /\
    MoreInfoWindow.dark_mode win = AboutThisMac.dark_mode a /\
    MoreInfoWindow.styleSheet win
      = (if AboutThisMac.dark_mode a then DARK_STYLE else LIGHT_STYLE) /\
    MoreInfoWindow.dark_mode_changed win = [update_dark_mode_of_parent] /\
    MoreInfoWindow.visible win = true /\
    AboutThisMac.dark_mode a1 = AboutThisMac.dark_mode a.
Proof.
  unfold AboutThisMac.show_more_info.
  destruct (MoreInfoWindow.__init__ w (AboutThisMac.dark_mode a))
    as [e | win] eqn:E; simpl; intros H; [discriminate H |].
  injection H as <-.
  destruct (MoreInfoWindow_init_spec w _ win E) as (Hd & Hs & Hc & _).
  eexists. split; [reflexivity |]. simpl. rewrite Hc. auto.
Qed.

Lemma show_more_info_synced (w : world) (a a1 : AboutThisMac.t) :
  AboutThisMac.show_more_info w a = inr a1 -> synced a1.
Proof.
  intros H. destruct (show_more_info_spec w a a1 H) as (win & Hw & Hd & _ & Hc & _ & Ha).
  exists win. rewrite Ha. auto.
Qed.

(** One press in a synchronised state: the child's flag is negated, the
    emission calls the parent's [update_dark_mode] with the new value, and
    the parent stores it. *)
Lemma press_toggle_spec (a : AboutThisMac.t) (win : MoreInfoWindow.t) :
  AboutThisMac.more_info_window a = Some win ->
  MoreInfoWindow.dark_mode_changed win = [update_dark_mode_of_parent] ->
  exists win',
    AboutThisMac.more_info_window (fst (AboutThisMac.press_toggle a)) = Some win' /\
    MoreInfoWindow.dark_mode win' = negb (MoreInfoWindow.dark_mode win) /\
    MoreInfoWindow.dark_mode_changed win' = [update_dark_mode_of_parent] /\
    MoreInfoWindow.visible win' = MoreInfoWindow.visible win /\
    snd (AboutThisMac.press_toggle a)
      = [(update_dark_mode_of_parent, MoreInfoWindow.dark_mode win')] /\
    AboutThisMac.dark_mode (fst (AboutThisMac.press_toggle a))
      = MoreInfoWindow.dark_mode win'.
Proof.
  intros Hw Hc. unfold AboutThisMac.press_toggle. rewrite Hw.
  destruct win as [flag style labels signal vis]. simpl in Hc. subst signal.
  destruct flag; eexists; repeat split; reflexivity.
Qed.

Lemma press_toggle_synced (a : AboutThisMac.t) :
  synced a ->
  synced (fst (AboutThisMac.press_toggle a)) /\
  AboutThisMac.dark_mode (fst (AboutThisMac.press_toggle a))
    = negb (AboutThisMac.dark_mode a).
Proof.
  intros (win & Hw & Hc & Hd).
  destruct (press_toggle_spec a win Hw Hc) as (win' & Hw' & Hd' & Hc' & _ & _ & Ha).
  split.
  - exists win'. rewrite Ha. auto.
  - now rewrite Ha, Hd', Hd.
Qed.

Lemma press_toggle_n_parity (n : nat) (a : AboutThisMac.t) :
  synced a ->
  AboutThisMac.dark_mode (press_toggle_n n a)
  = if Nat.even n then AboutThisMac.dark_mode a
    else negb (AboutThisMac.dark_mode a).
Proof.
  revert a. induction n as [| n IH]; intros a Hs; [reflexivity |].
  destruct (press_toggle_synced a Hs) as [Hs' Hd].
  cbn [press_toggle_n]. rewrite (IH _ Hs'), Hd.
  rewrite Nat.even_succ, <- Nat.negb_even.
  destruct (Nat.even n); simpl; [reflexivity | apply negb_involutive].
Qed.

Lemma press_toggle_visible (a : AboutThisMac.t) :
  synced a ->
  AboutThisMac.more_info_visible (fst (AboutThisMac.press_toggle a))
  = AboutThisMac.more_info_visible a.
Proof.
  intros (win & Hw & Hc & _).
  destruct (press_toggle_spec a win Hw Hc) as (win' & Hw' & _ & _ & Hv & _).
  unfold AboutThisMac.more_info_visible. now rewrite Hw, Hw'.
Qed.

(** With the secondary dialog on screen, [n] clicks on its toggle button
    are [n] presses. *)
Lemma run_clicks (w : world) (n : nat) (a : AboutThisMac.t) :
  synced a -> AboutThisMac.more_info_visible a = true ->
  run w a (repeat click_toggle_dark_mode n) = inr (press_toggle_n n a).
Proof.
  revert a. induction n as [| n IH]; intros a Hs Hv; [reflexivity |].
  cbn [repeat run step]. rewrite Hv. simpl bind.
  apply IH.
  - now apply press_toggle_synced.
  - now rewrite press_toggle_visible.
Qed.

(** C4: the secondary dialog being opened from the primary one, whatever the
    primary dialog's flag, [n] clicks on the toggle button are handled as [n]
    presses and leave the primary dialog's flag at its original value when
    [n] is even and at its negation when [n] is odd. *)
Theorem toggle_parity (w : world) (a a1 : AboutThisMac.t) (n : nat) :
  AboutThisMac.show_more_info w a = inr a1 ->
  run w a1 (repeat click_toggle_dark_mode n) = inr (press_toggle_n n a1) /\
  AboutThisMac.dark_mode (press_toggle_n n a1)
  = if Nat.even n then AboutThisMac.dark_mode a
    else negb (AboutThisMac.dark_mode a).
Proof.
  intros H.
  destruct (show_more_info_spec w a a1 H) as (win & Hw & _ & _ & _ & Hv & Ha).
  pose proof (show_more_info_synced w a a1 H) as Hs.
  split.
  - apply run_clicks; [exact Hs |].
    unfold AboutThisMac.more_info_visible. now rewrite Hw.
  - rewrite <- Ha. now apply press_toggle_n_parity.
Qed.

(** The reachable states keep the two flags equal and the signal
    connected. *)
Lemma reachable_synced (w : world) (a : AboutThisMac.t) :
  reachable w a -> AboutThisMac.more_info_window a = None \/ synced a.
Proof.
  induction 1 as [a Hinit | a ev a' Hr IH Hstep].
  - left. unfold AboutThisMac.__init__ in Hinit.
    destruct (get_motherboard_name w); simpl in Hinit; [discriminate Hinit |].
    destruct (memory_label w); simpl in Hinit; [discriminate Hinit |].
    now injection Hinit as <-.
  - destruct ev; simpl in Hstep.
    + destruct (AboutThisMac.more_info_visible a).
      * now injection Hstep as <-.
      * right. now apply show_more_info_synced with w a.
    + destruct (AboutThisMac.more_info_visible a) eqn:V.
      * injection Hstep as <-.
        destruct IH as [N | S].
        -- unfold AboutThisMac.more_info_visible in V. rewrite N in V. discriminate V.
        -- right. now apply press_toggle_synced.
      * now injection Hstep as <-.
    + injection Hstep as <-.
      destruct IH as [N | (win & Hw & Hc & Hd)].
      * left. unfold AboutThisMac.close_more_info. now rewrite N.
      * right. unfold AboutThisMac.close_more_info. rewrite Hw.
        eexists. split; [reflexivity |]. simpl. auto.
Qed.

(** Both constructors return whenever the board-name lookup returns and
    the memory query returns a total below [2^53] bytes. *)
Lemma dialogs_constructed (w : world) (name : str) (total : Z)
    (a : AboutThisMac.t) :
  get_motherboard_name w = inr name ->
  virtual_memory_total w = inr total -> (0 <= total < 2 ^ 53)%Z ->
  (exists a0, AboutThisMac.__init__ w = inr a0) /\
  (exists a1, AboutThisMac.show_more_info w a = inr a1).
Proof.
  intros Hn Hv Hr. split.
  - unfold AboutThisMac.__init__, memory_label.
    rewrite Hn.
    rewrite Hv. simpl. rewrite (memory_gb_floor total Hr). eexists. reflexivity.
  - unfold AboutThisMac.show_more_info, MoreInfoWindow.__init__, memory_info.
    rewrite Hv. simpl. rewrite (memory_gb_floor total Hr). eexists. reflexivity.
Qed.

Lemma toggle_parity_witness :
  AboutThisMac.show_more_info linux_host linux_primary = inr linux_opened /\
  AboutThisMac.dark_mode linux_primary = false /\
  (run linux_host linux_opened (repeat click_toggle_dark_mode 3)
     = inr (press_toggle_n 3 linux_opened) /\
   AboutThisMac.dark_mode (press_toggle_n 3 linux_opened) = true) /\
  (run linux_host linux_opened (repeat click_toggle_dark_mode 4)
     = inr (press_toggle_n 4 linux_opened) /\
   AboutThisMac.dark_mode (press_toggle_n 4 linux_opened) = false).
Proof.
  split; [reflexivity |]. split; [reflexivity |]. split.
  - exact (toggle_parity linux_host linux_primary linux_opened 3 eq_refl).
  - exact (toggle_parity linux_host linux_primary linux_opened 4 eq_refl).
Defined.

(** C7: in every state the program reaches with the secondary dialog on
    screen, a press of its toggle button negates the secondary dialog's
    flag, emits exactly one notification, to the primary dialog's
    [update_dark_mode] and carrying the new value, and leaves the primary
    dialog's flag equal to the secondary dialog's. *)
Theorem toggle_synchronises (w : world) (a : AboutThisMac.t) :
  reachable w a ->
  AboutThisMac.more_info_visible a = true ->
  step w a click_toggle_dark_mode = inr (fst (AboutThisMac.press_toggle a)) /\
  exists win win',
    AboutThisMac.more_info_window a = Some win /\
    AboutThisMac.more_info_window (fst (AboutThisMac.press_toggle a)) = Some win' /\
    MoreInfoWindow.dark_mode win' = negb (MoreInfoWindow.dark_mode win) /\
    snd (AboutThisMac.press_toggle a)
      = [(update_dark_mode_of_parent, MoreInfoWindow.dark_mode win')] /\
    AboutThisMac.dark_mode (fst (AboutThisMac.press_toggle a))
      = MoreInfoWindow.dark_mode win'.
Proof.
  intros Hr Hv. split.
  - simpl. now rewrite Hv.
  - destruct (reachable_synced w a Hr) as [N | (win & Hw & Hc & _)].
    + unfold AboutThisMac.more_info_visible in Hv. rewrite N in Hv. discriminate Hv.
    + destruct (press_toggle_spec a win Hw Hc) as (win' & Hw' & Hd' & _ & _ & He & Ha).
      exists win, win'. auto.
Qed.

Lemma linux_toggled_reachable : reachable linux_host linux_toggled.
Proof.
  apply reach_step with (a := linux_opened) (ev := click_toggle_dark_mode);
    [| reflexivity].
  apply reach_step with (a := linux_primary) (ev := click_more_info);
    [| reflexivity].
  apply reach_init. reflexivity.
Defined.

Lemma toggle_synchronises_witness :
  reachable linux_host linux_toggled /\
  AboutThisMac.more_info_visible linux_toggled = true /\
  exists win win',
    AboutThisMac.more_info_window linux_toggled = Some win /\
    AboutThisMac.more_info_window (fst (AboutThisMac.press_toggle linux_toggled))
      = Some win' /\
    MoreInfoWindow.dark_mode win' = negb (MoreInfoWindow.dark_mode win) /\
    snd (AboutThisMac.press_toggle linux_toggled)
      = [(update_dark_mode_of_parent, MoreInfoWindow.dark_mode win')] /\
    AboutThisMac.dark_mode (fst (AboutThisMac.press_toggle linux_toggled))
      = MoreInfoWindow.dark_mode win'.
Proof.
  split; [exact linux_toggled_reachable |]. split; [reflexivity |].
  exact (proj2 (toggle_synchronises linux_host linux_toggled
                  linux_toggled_reachable eq_refl)).
Defined.

(** C10: the primary dialog is constructed with its flag false, and every
    secondary dialog [show_more_info] constructs carries the primary
    dialog's current flag and the style sheet of that flag. *)
Theorem flag_initial_and_inherited (w : world) :
  (forall a, AboutThisMac.__init__ w = inr a -> AboutThisMac.dark_mode a = false) /\
  (forall a a1,
     AboutThisMac.show_more_info w a = inr a1 ->
     exists win,
       AboutThisMac.more_info_window a1 = Some win /\
       MoreInfoWindow.dark_mode win = AboutThisMac.dark_mode a /\
       MoreInfoWindow.styleSheet win
         = (if AboutThisMac.dark_mode a then DARK_STYLE else LIGHT_STYLE)).
Proof.
  split.
  - intros a Hinit. unfold AboutThisMac.__init__ in Hinit.
    destruct (get_motherboard_name w); simpl in Hinit; [discriminate Hinit |].
    destruct (memory_label w); simpl in Hinit; [discriminate Hinit |].
    now injection Hinit as <-.
  - intros a a1 H.
    destruct (show_more_info_spec w a a1 H) as (win & Hw & Hd & Hs & _).
    exists win. auto.
Qed.

Lemma flag_initial_and_inherited_witness :
  AboutThisMac.__init__ linux_host = inr linux_primary /\
  AboutThisMac.dark_mode linux_primary = false /\
  AboutThisMac.dark_mode (AboutThisMac.close_more_info linux_toggled) = true /\
  AboutThisMac.show_more_info linux_host (AboutThisMac.close_more_info linux_toggled)
    = inr linux_reopened /\
  exists win,
    AboutThisMac.more_info_window linux_reopened = Some win /\
    MoreInfoWindow.dark_mode win = true /\
    MoreInfoWindow.styleSheet win = DARK_STYLE.
Proof.
  split; [reflexivity |].
  split; [exact (proj1 (flag_initial_and_inherited linux_host) linux_primary eq_refl) |].
  split; [reflexivity |]. split; [reflexivity |].
  exact (proj2 (flag_initial_and_inherited linux_host)
           (AboutThisMac.close_more_info linux_toggled) linux_reopened eq_refl).
Defined.


(** * Further properties of the lookup *)

Lemma str_eqb_neq (a b : str) : a <> b -> str_eqb a b = false.
Proof.
  intros H. destruct (str_eqb a b) eqn:E; [| reflexivity].
  elim H. now apply str_eqb_eq.
Qed.

(** X1: [get_motherboard_name] returns the empty string exactly when the
    host is Linux and the [board_name] file opens and reads as nothing but
    white space. *)
Theorem empty_name_iff (w : world) :
  get_motherboard_name w = inr [] <->
  (platform_system w = py "Linux" /\
   exists content,
     open_board_name w = inr tt /\ read_board_name w = inr content /\
     strip content = []).
Proof.
  split; [apply get_motherboard_name_empty |].
  intros (Hs & content & Ho & Hr & He).
  rewrite (get_motherboard_name_returned w []); [reflexivity |].
  rewrite (raw_board_name_linux w Hs), (linux_board_name_read w content _ Ho Hr).
  now rewrite He.
Qed.

Lemma empty_name_iff_witness :
  get_motherboard_name linux_blank_host = inr [] /\
  get_motherboard_name linux_host <> inr [].
Proof.
  split.
  - apply (proj2 (empty_name_iff linux_blank_host)).
    split; [reflexivity |]. exists [LF]. repeat split; reflexivity.
  - intros H. apply (proj1 (empty_name_iff linux_host)) in H.
    destruct H as (_ & content & _ & Hr & He).
    injection Hr as <-. discriminate He.
Defined.

(** X2: an exception the command raises on Windows, or opening or reading
    the file raises on Linux, makes [get_motherboard_name] return
    ["Unknown Board"] when it is an instance of [Exception], and leaves
    [get_motherboard_name] unchanged when it is not. *)
Theorem lookup_errors_collapse (w : world) (e : exn) :
  (platform_system w = py "Windows" /\ wmic_output w = inl e) \/
  (platform_system w = py "Linux" /\
   (open_board_name w = inl e \/
    (open_board_name w = inr tt /\ read_board_name w = inl e))) ->
  get_motherboard_name w
  = if isinstance_Exception e then inr UNKNOWN_BOARD else inl e.
Proof.
  intros [[Hs Hc] | [Hs Hf]].
  - now apply command_failure_handled.
  - now apply file_failure_handled.
Qed.

Lemma lookup_errors_collapse_witness :
  get_motherboard_name windows_failed_host = inr UNKNOWN_BOARD /\
  get_motherboard_name linux_denied_host = inr UNKNOWN_BOARD /\
  get_motherboard_name linux_missing_host = inr UNKNOWN_BOARD /\
  get_motherboard_name linux_exiting_host = inl (SystemExit 0).
Proof.
  split; [| split; [| split]].
  - apply (lookup_errors_collapse windows_failed_host (CalledProcessError 1)).
    left. split; reflexivity.
  - apply (lookup_errors_collapse linux_denied_host PermissionError).
    right. split; [reflexivity | left; reflexivity].
  - apply (lookup_errors_collapse linux_missing_host FileNotFoundError).
    right. split; [reflexivity | left; reflexivity].
  - apply (lookup_errors_collapse linux_exiting_host (SystemExit 0)).
    right. split; [reflexivity | right; split; reflexivity].
Defined.

Lemma stripped_lines_length (output : str) :
  length (stripped_lines output) = length (filter nonblank (splitlines output)).
Proof.
  unfold stripped_lines. rewrite length_map. f_equal.
  apply filter_ext. intros line. unfold nonblank, isblank.
  now rewrite negb_involutive.
Qed.

(** X3: on Windows, a command output with at most one non-blank line (no
    output at all, blank lines only, the header alone) gives
    ["Unknown Board"]. *)
Theorem windows_too_few_lines (w : world) (output : str) :
  platform_system w = py "Windows" ->
  wmic_output w = inr output ->
  length (filter nonblank (splitlines output)) <= 1 ->
  get_motherboard_name w = inr UNKNOWN_BOARD.
Proof.
  intros Hs Hc Hl. apply command_no_data_fallback with output; auto.
  now rewrite stripped_lines_length.
Qed.

Lemma windows_too_few_lines_witness :
  platform_system windows_header_host = py "Windows" /\
  length (filter nonblank
            (splitlines (py "Product  " ++ [CR; CR; LF; CR; CR; LF]))) <= 1 /\
  get_motherboard_name windows_header_host = inr UNKNOWN_BOARD.
Proof.
  assert (L : length (filter nonblank
                (splitlines (py "Product  " ++ [CR; CR; LF; CR; CR; LF]))) <= 1)
    by (vm_compute; lia).
  split; [reflexivity |]. split; [exact L |].
  exact (windows_too_few_lines windows_header_host _ eq_refl eq_refl L).
Defined.

(** X4: on a host whose identifier is neither exactly ["Windows"] nor
    exactly ["Linux"], [get_motherboard_name] returns ["Unknown Board"],
    whatever the command and the file would answer. *)
Theorem other_platform_unknown (w : world) :
  platform_system w <> py "Windows" ->
  platform_system w <> py "Linux" ->
  get_motherboard_name w = inr UNKNOWN_BOARD.
Proof.
  intros H1 H2. apply other_platform_fallback; now apply str_eqb_neq.
Qed.

Lemma other_platform_unknown_witness :
  platform_system darwin_host <> py "Windows" /\
  platform_system darwin_host <> py "Linux" /\
  get_motherboard_name darwin_host = inr UNKNOWN_BOARD.
Proof.
  assert (H1 : platform_system darwin_host <> py "Windows") by discriminate.
  assert (H2 : platform_system darwin_host <> py "Linux") by discriminate.
  split; [exact H1 |]. split; [exact H2 |].
  exact (other_platform_unknown darwin_host H1 H2).
Defined.

(** X5: the only exceptions that reach the outer handler are the command's
    own on Windows and, on Linux, those of opening or reading the file other
    than [FileNotFoundError]; the indexing of line 26 raises none. *)
Theorem raised_origin (w : world) (e : exn) :
  raw_board_name w = inl e ->
  (platform_system w = py "Windows" /\ wmic_output w = inl e) \/
  (platform_system w = py "Linux" /\
   isinstance_FileNotFoundError e = false /\
   (open_board_name w = inl e \/
    (open_board_name w = inr tt /\ read_board_name w = inl e))).
Proof.
  unfold raw_board_name. intros H.
  destruct (str_eqb (platform_system w) (py "Windows")) eqn:Hw.
  { left. split; [now apply str_eqb_eq |].
    destruct (wmic_output w) as [e' | output] eqn:Hc.
    - rewrite (windows_board_name_raised w e' _ Hc) in H. exact H.
    - rewrite (windows_board_name_lines w output _ Hc) in H. discriminate H. }
  destruct (str_eqb (platform_system w) (py "Linux")) eqn:Hl;
    [| discriminate H].
  right. split; [now apply str_eqb_eq |].
  destruct (open_board_name w) as [e' | []] eqn:Ho.
  { rewrite (linux_board_name_open_raised w e' _ Ho) in H.
    destruct (isinstance_FileNotFoundError e') eqn:C; [discriminate H |].
    injection H as <-. auto. }
  destruct (read_board_name w) as [e' | content] eqn:Hr.
  { rewrite (linux_board_name_read_raised w e' _ Ho Hr) in H.
    destruct (isinstance_FileNotFoundError e') eqn:C; [discriminate H |].
    injection H as <-. auto. }
  rewrite (linux_board_name_read w content _ Ho Hr) in H. discriminate H.
Qed.

Lemma raised_origin_witness :
  raw_board_name linux_denied_host = inl PermissionError /\
  platform_system linux_denied_host = py "Linux" /\
  open_board_name linux_denied_host = inl PermissionError.
Proof.
  split; [reflexivity |]. split; [reflexivity |].
  destruct (raised_origin linux_denied_host PermissionError eq_refl)
    as [[Hs _] | (_ & _ & [Ho | [Ho _]])].
  - discriminate Hs.
  - exact Ho.
  - discriminate Ho.
Defined.

(** ** The shape of the returned name *)

Lemma lstrip_head (s : str) :
  match lstrip s with
  | [] => True
  | c :: _ => isspace c = false
  end.
Proof.
  induction s as [| c s IH]; simpl; [exact I |].
  destruct (isspace c) eqn:E; [exact IH | exact E].
Qed.

Lemma lstrip_cons (c : char) (s : str) :
  isspace c = false -> lstrip (c :: s) = c :: s.
Proof. intros H. simpl. now rewrite H. Qed.

Lemma lstrip_snoc (s : str) (c : char) :
  isspace c = false -> lstrip (s ++ [c]) = lstrip s ++ [c].
Proof.
  intros H. induction s as [| x s IH]; simpl.
  - now rewrite H.
  - destruct (isspace x); [exact IH | reflexivity].
Qed.

Lemma rstrip_cons (c : char) (s : str) :
  isspace c = false -> rstrip (c :: s) = c :: rstrip s.
Proof.
  intros H. unfold rstrip. simpl rev.
  now rewrite (lstrip_snoc (rev s) c H), rev_unit.
Qed.

Lemma rstrip_snoc (s : str) (c : char) :
  isspace c = false -> rstrip (s ++ [c]) = s ++ [c].
Proof.
  intros H. unfold rstrip.
  now rewrite rev_unit, (lstrip_cons c (rev s) H), <- rev_unit, rev_involutive.
Qed.

Lemma lstrip_idem (s : str) : lstrip (lstrip s) = lstrip s.
Proof.
  pose proof (lstrip_head s) as H.
  destruct (lstrip s) as [| c t]; [reflexivity | now apply lstrip_cons].
Qed.

Lemma rstrip_idem (s : str) : rstrip (rstrip s) = rstrip s.
Proof. unfold rstrip. now rewrite rev_involutive, lstrip_idem. Qed.

Lemma strip_idem (s : str) : strip (strip s) = strip s.
Proof.
  unfold strip. pose proof (lstrip_head s) as H.
  destruct (lstrip s) as [| c t]; [reflexivity |].
  rewrite (rstrip_cons c t H), (lstrip_cons c (rstrip t) H).
  rewrite <- (rstrip_cons c t H). apply rstrip_idem.
Qed.

(** A stripped string is empty or starts with a character that is not
    white space. *)
Lemma stripped_head (s : str) :
  strip s = s ->
  match s with
  | [] => True
  | c :: _ => isspace c = false
  end.
Proof.
  unfold strip. intros E. pose proof (lstrip_head s) as H.
  destruct (lstrip s) as [| c t].
  - rewrite <- E. exact I.
  - rewrite (rstrip_cons c t H) in E. rewrite <- E. exact H.
Qed.

Lemma strip_snoc (u : str) (c : char) :
  isspace c = false ->
  match u ++ [c] with
  | [] => True
  | x :: _ => isspace x = false
  end ->
  strip (u ++ [c]) = u ++ [c].
Proof.
  intros Hc Hh. unfold strip.
  assert (L : lstrip (u ++ [c]) = u ++ [c]).
  { destruct (u ++ [c]) as [| x t]; [reflexivity | now apply lstrip_cons]. }
  rewrite L. now apply rstrip_snoc.
Qed.

Lemma strip_dots (s : str) :
  match s with
  | [] => True
  | c :: _ => isspace c = false
  end ->
  strip (s ++ py "...") = s ++ py "...".
Proof.
  intros H.
  assert (E : s ++ py "..." = (s ++ [46; 46]%N) ++ [46%N])
    by (now rewrite <- app_assoc).
  rewrite E. apply strip_snoc; [reflexivity |].
  destruct s as [| c t]; [reflexivity | exact H].
Qed.

Lemma shorten_stripped (s : str) : strip s = s -> strip (shorten s) = shorten s.
Proof.
  intros E. unfold shorten.
  destruct (20 <? length s) eqn:L; [| exact E].
  apply strip_dots. pose proof (stripped_head s E) as H.
  destruct s as [| c t]; [exact I | exact H].
Qed.

Lemma raw_board_name_stripped (w : world) (raw : str) :
  raw_board_name w = inr raw -> strip raw = raw.
Proof.
  unfold raw_board_name. intros H.
  destruct (str_eqb (platform_system w) (py "Windows")).
  { destruct (wmic_output w) as [e | output] eqn:Hc.
    - rewrite (windows_board_name_raised w e _ Hc) in H. discriminate H.
    - rewrite (windows_board_name_lines w output _ Hc) in H.
      injection H as <-. unfold stripped_lines.
      destruct (filter (fun line => truthy (strip line)) (splitlines output))
        as [| first [| second rest]]; simpl; try reflexivity.
      apply strip_idem. }
  destruct (str_eqb (platform_system w) (py "Linux"));
    [| injection H as <-; reflexivity].
  destruct (open_board_name w) as [e | []] eqn:Ho.
  { rewrite (linux_board_name_open_raised w e _ Ho) in H.
    destruct (isinstance_FileNotFoundError e); [| discriminate H].
    injection H as <-. reflexivity. }
  destruct (read_board_name w) as [e | content] eqn:Hr.
  { rewrite (linux_board_name_read_raised w e _ Ho Hr) in H.
    destruct (isinstance_FileNotFoundError e); [| discriminate H].
    injection H as <-. reflexivity. }
  rewrite (linux_board_name_read w content _ Ho Hr) in H.
  injection H as <-. apply strip_idem.
Qed.

(** X6: the name [get_motherboard_name] returns never begins or ends with
    white space: stripping it changes nothing. *)
Theorem returned_name_stripped (w : world) (name : str) :
  get_motherboard_name w = inr name -> strip name = name.
Proof.
  intros H.
  destruct (get_motherboard_name_inversion w name H) as [(raw & E & ->) | ->].
  - apply shorten_stripped. now apply raw_board_name_stripped with w.
  - reflexivity.
Qed.

Lemma returned_name_stripped_witness :
  get_motherboard_name windows_host = inr (py "X570 AORUS ELITE WIF...") /\
  strip (py "X570 AORUS ELITE WIF...") = py "X570 AORUS ELITE WIF...".
Proof.
  split; [reflexivity |].
  exact (returned_name_stripped windows_host _ eq_refl).
Defined.

Lemma splitlines_single_lines (s : str) : Forall single_line (splitlines s).
Proof.
  assert (G : forall n (t : str), length t <= n -> Forall single_line (splitlines t)).
  { induction n as [| n IH]; intros t Hl.
    - destruct t; [constructor | simpl in Hl; lia].
    - destruct t as [| c rest]; [constructor |].
      simpl in Hl. cbn [splitlines].
      destruct (islinebreak c) eqn:B.
      + constructor; [constructor |].
        destruct rest as [| c2 rest']; [constructor |].
        simpl in Hl.
        destruct ((c =? 13) && (c2 =? 10))%N; apply IH; simpl; lia.
      + assert (R : Forall single_line (splitlines rest)) by (apply IH; lia).
        destruct (splitlines rest) as [| l ls].
        * repeat constructor. exact B.
        * inversion R as [| ? ? Hl0 Hls]. subst.
          constructor; [constructor; assumption | assumption]. }
  now apply G with (length s).
Qed.

Lemma lstrip_single_line (s : str) : single_line s -> single_line (lstrip s).
Proof.
  unfold single_line. induction 1 as [| c s Hc Hs IH]; simpl; [constructor |].
  destruct (isspace c); [exact IH | now constructor].
Qed.

Lemma strip_single_line (s : str) : single_line s -> single_line (strip s).
Proof.
  intros H. unfold strip, rstrip.
  apply Forall_rev, lstrip_single_line, Forall_rev, lstrip_single_line, H.
Qed.

Lemma firstn_single_line (n : nat) (s : str) :
  single_line s -> single_line (firstn n s).
Proof.
  unfold single_line. intros H. revert n.
  induction H as [| c s Hc Hs IH]; intros [| n]; simpl; constructor; auto.
Qed.

Lemma shorten_single_line (s : str) : single_line s -> single_line (shorten s).
Proof.
  intros H. unfold shorten. destruct (20 <? length s); [| exact H].
  apply Forall_app. split; [now apply firstn_single_line |].
  repeat constructor.
Qed.

(** X7: on Windows the returned name holds no line-break character: it is
    one line of the command's output (or the fallback), never several. *)
Theorem windows_name_single_line (w : world) (name : str) :
  platform_system w = py "Windows" ->
  get_motherboard_name w = inr name ->
  single_line name.
Proof.
  intros Hs H.
  destruct (get_motherboard_name_inversion w name H) as [(raw & E & ->) | ->];
    [| repeat constructor].
  apply shorten_single_line.
  rewrite (raw_board_name_windows w Hs) in E.
  destruct (wmic_output w) as [e | output] eqn:Hc.
  { rewrite (windows_board_name_raised w e _ Hc) in E. discriminate E. }
  rewrite (windows_board_name_lines w output _ Hc) in E.
  injection E as <-.
  assert (F : Forall single_line (stripped_lines output)).
  { unfold stripped_lines. apply Forall_map, Forall_forall.
    intros line Hin. apply filter_In in Hin. destruct Hin as [Hin _].
    apply strip_single_line.
    pose proof (splitlines_single_lines output) as A.
    now apply (proj1 (Forall_forall _ _) A). }
  destruct (stripped_lines output) as [| first [| second rest]];
    try (repeat constructor).
  inversion F as [| ? ? _ F']. now inversion F'.
Qed.

Lemma windows_name_single_line_witness :
  platform_system windows_host = py "Windows" /\
  get_motherboard_name windows_host = inr (py "X570 AORUS ELITE WIF...") /\
  single_line (py "X570 AORUS ELITE WIF...").
Proof.
  split; [reflexivity |]. split; [reflexivity |].
  exact (windows_name_single_line windows_host _ eq_refl eq_refl).
Defined.

(** * Further properties of the dialogs *)

(** X8: the memory query is not guarded: an exception it raises leaves the
    constructor of the primary dialog, although [get_motherboard_name] has
    returned, and leaves the handler that opens the secondary dialog. *)
Theorem memory_query_unguarded (w : world) (e : exn) :
  virtual_memory_total w = inl e ->
  (forall name, get_motherboard_name w = inr name ->
                AboutThisMac.__init__ w = inl e) /\
  (forall a, AboutThisMac.show_more_info w a = inl e) /\
  (forall a, AboutThisMac.more_info_visible a = false ->
             step w a click_more_info = inl e).
Proof.
  intros Hv.
  assert (S : forall a, AboutThisMac.show_more_info w a = inl e).
  { intros a.
    unfold AboutThisMac.show_more_info, MoreInfoWindow.__init__, memory_info.
    now rewrite Hv. }
  split; [| split].
  - intros name Hn. unfold AboutThisMac.__init__, memory_label.
    rewrite Hn. now rewrite Hv.
  - exact S.
  - intros a Hvis. simpl. rewrite Hvis. apply S.
Qed.

Lemma memory_query_unguarded_witness :
  virtual_memory_total no_memory_host = inl (OtherException "AccessDenied") /\
  get_motherboard_name no_memory_host = inr (py "B550M DS3H") /\
  AboutThisMac.__init__ no_memory_host = inl (OtherException "AccessDenied").
Proof.
  split; [reflexivity |]. split; [reflexivity |].
  exact (proj1 (memory_query_unguarded no_memory_host
                  (OtherException "AccessDenied") eq_refl)
           (py "B550M DS3H") eq_refl).
Defined.

Lemma call_keeps_snapshot (a : AboutThisMac.t) (c : receiver * bool) :
  AboutThisMac.mac_title (AboutThisMac.call a c) = AboutThisMac.mac_title a /\
  AboutThisMac.labels (AboutThisMac.call a c) = AboutThisMac.labels a.
Proof.
  destruct c as [[] flag]. unfold AboutThisMac.call. simpl fst. simpl snd.
  unfold AboutThisMac.update_dark_mode, AboutThisMac.apply_dark_mode.
  destruct flag; split; reflexivity.
Qed.

Lemma calls_keep_snapshot (calls : list (receiver * bool)) (a : AboutThisMac.t) :
  AboutThisMac.mac_title (fold_left AboutThisMac.call calls a)
    = AboutThisMac.mac_title a /\
  AboutThisMac.labels (fold_left AboutThisMac.call calls a)
    = AboutThisMac.labels a.
Proof.
  revert a. induction calls as [| c calls IH]; intros a; [split; reflexivity |].
  simpl. destruct (IH (AboutThisMac.call a c)) as [Ht Hl].
  destruct (call_keeps_snapshot a c) as [Ht' Hl'].
  split; congruence.
Qed.

Lemma step_keeps_snapshot (w : world) (a a' : AboutThisMac.t) (ev : event) :
  step w a ev = inr a' ->
  AboutThisMac.mac_title a' = AboutThisMac.mac_title a /\
  AboutThisMac.labels a' = AboutThisMac.labels a.
Proof.
  destruct ev; simpl.
  - destruct (AboutThisMac.more_info_visible a).
    + intros H. injection H as <-. split; reflexivity.
    + unfold AboutThisMac.show_more_info.
      destruct (MoreInfoWindow.__init__ w (AboutThisMac.dark_mode a)); simpl;
        intros H; [discriminate H |].
      injection H as <-. split; reflexivity.
  - destruct (AboutThisMac.more_info_visible a);
      intros H; injection H as <-; [| split; reflexivity].
    unfold AboutThisMac.press_toggle.
    destruct (AboutThisMac.more_info_window a) as [win |]; [| split; reflexivity].
    destruct (MoreInfoWindow.toggle_dark_mode win) as [win' calls]. simpl fst.
    destruct (calls_keep_snapshot calls (AboutThisMac.set_more_info_window win' a))
      as [Ht Hl].
    rewrite Ht, Hl. split; reflexivity.
  - intros H. injection H as <-. unfold AboutThisMac.close_more_info.
    destruct (AboutThisMac.more_info_window a); split; reflexivity.
Qed.

(** X9: the title and the labels of the primary dialog are those of its
    construction: no sequence of actions changes them, whatever the platform
    answers while they are handled. *)
Theorem snapshot_never_refreshed (w : world) (evs : list event)
    (a a' : AboutThisMac.t) :
  run w a evs = inr a' ->
  AboutThisMac.mac_title a' = AboutThisMac.mac_title a /\
  AboutThisMac.labels a' = AboutThisMac.labels a.
Proof.
  revert a. induction evs as [| ev evs IH]; intros a; simpl.
  - intros H. injection H as <-. split; reflexivity.
  - destruct (step w a ev) as [e | a1] eqn:E; simpl; intros H; [discriminate H |].
    destruct (step_keeps_snapshot w a a1 ev E) as [Ht Hl].
    destruct (IH a1 H) as [Ht' Hl'].
    split; congruence.
Qed.

Lemma snapshot_never_refreshed_witness :
  run darwin_host linux_primary
      [click_more_info; click_toggle_dark_mode; close_dialog; click_more_info]
    = inr (returned no_dialog
             (run darwin_host linux_primary
                [click_more_info; click_toggle_dark_mode; close_dialog;
                 click_more_info])) /\
  AboutThisMac.mac_title
    (returned no_dialog
       (run darwin_host linux_primary
          [click_more_info; click_toggle_dark_mode; close_dialog;
           click_more_info]))
  = py "B550M DS3H".
Proof.
  split; [reflexivity |].
  exact (proj1 (snapshot_never_refreshed darwin_host
                  [click_more_info; click_toggle_dark_mode; close_dialog;
                   click_more_info]
                  linux_primary _ eq_refl)).
Defined.

Lemma init_consistent (w : world) (a : AboutThisMac.t) :
  AboutThisMac.__init__ w = inr a -> consistent a.
Proof.
  unfold AboutThisMac.__init__. intros H.
  destruct (get_motherboard_name w); simpl in H; [discriminate H |].
  destruct (memory_label w); simpl in H; [discriminate H |].
  injection H as <-. split; [right; split; reflexivity |].
  intros win Hw. discriminate Hw.
Qed.

Lemma show_more_info_consistent (w : world) (a a1 : AboutThisMac.t) :
  consistent a -> AboutThisMac.show_more_info w a = inr a1 -> consistent a1.
Proof.
  intros [Hp _] H.
  destruct (show_more_info_spec w a a1 H) as (win & Hw & Hd & Hs & Hc & _ & Ha).
  unfold AboutThisMac.show_more_info in H.
  destruct (MoreInfoWindow.__init__ w (AboutThisMac.dark_mode a)); simpl in H;
    [discriminate H |].
  injection H as <-. split; [exact Hp |].
  intros win0 Hw0. rewrite Hw in Hw0. injection Hw0 as <-.
  simpl. rewrite Hd. auto.
Qed.

Lemma press_toggle_consistent (a : AboutThisMac.t) :
  consistent a -> consistent (fst (AboutThisMac.press_toggle a)).
Proof.
  intros [Hp Hw]. unfold AboutThisMac.press_toggle.
  destruct (AboutThisMac.more_info_window a) as [win |] eqn:E.
  - destruct (Hw win eq_refl) as (Hd & Hs & Hc).
    destruct win as [flag style labels signal vis]. simpl in Hd, Hs, Hc.
    subst signal. destruct a as [pflag pstyle title plabels pwin].
    simpl in *. subst pflag.
    destruct flag; simpl; (split; [left; reflexivity |]);
      intros win0 H0; injection H0 as <-; repeat split; reflexivity.
  - simpl. split; [exact Hp |]. intros win H. rewrite E in H. discriminate H.
Qed.

Lemma close_consistent (a : AboutThisMac.t) :
  consistent a -> consistent (AboutThisMac.close_more_info a).
Proof.
  intros [Hp Hw]. unfold AboutThisMac.close_more_info.
  destruct (AboutThisMac.more_info_window a) as [win |] eqn:E.
  - destruct (Hw win eq_refl) as (Hd & Hs & Hc).
    split; [exact Hp |]. intros win0 H0. injection H0 as <-. simpl. auto.
  - split; [exact Hp |]. intros win H. rewrite E in H. discriminate H.
Qed.

Lemma reachable_consistent (w : world) (a : AboutThisMac.t) :
  reachable w a -> consistent a.
Proof.
  induction 1 as [a Hinit | a ev a' Hr IH Hstep].
  - now apply init_consistent with w.
  - destruct ev; simpl in Hstep.
    + destruct (AboutThisMac.more_info_visible a).
      * now injection Hstep as <-.
      * now apply show_more_info_consistent with w a.
    + destruct (AboutThisMac.more_info_visible a); injection Hstep as <-;
        [now apply press_toggle_consistent | exact IH].
    + injection Hstep as <-. now apply close_consistent.
Qed.

(** X10: in every state the program reaches, a secondary dialog that exists
    carries the primary dialog's flag, the style sheet of that flag and
    exactly one receiver; the primary dialog's style sheet is the one of its
    flag, or was never set while its flag is still false. *)
Theorem reachable_flags_and_styles (w : world) (a : AboutThisMac.t) :
  reachable w a ->
  (AboutThisMac.styleSheet a = style_of (AboutThisMac.dark_mode a) \/
   (AboutThisMac.styleSheet a = [] /\ AboutThisMac.dark_mode a = false)) /\
  forall win,
    AboutThisMac.more_info_window a = Some win ->
    MoreInfoWindow.dark_mode win = AboutThisMac.dark_mode a /\
    MoreInfoWindow.styleSheet win = style_of (MoreInfoWindow.dark_mode win) /\
    MoreInfoWindow.dark_mode_changed win = [update_dark_mode_of_parent].
Proof. intros H. exact (reachable_consistent w a H). Qed.

Lemma reachable_flags_and_styles_witness :
  reachable linux_host linux_toggled /\
  AboutThisMac.dark_mode linux_toggled = true /\
  AboutThisMac.styleSheet linux_toggled = DARK_STYLE /\
  forall win,
    AboutThisMac.more_info_window linux_toggled = Some win ->
    MoreInfoWindow.dark_mode win = true /\
    MoreInfoWindow.styleSheet win = DARK_STYLE /\
    MoreInfoWindow.dark_mode_changed win = [update_dark_mode_of_parent].
Proof.
  split; [exact linux_toggled_reachable |]. split; [reflexivity |].
  split; [reflexivity |]. intros win Hw.
  destruct (proj2 (reachable_flags_and_styles linux_host linux_toggled
                     linux_toggled_reachable) win Hw) as (Hd & Hs & Hc).
  change (AboutThisMac.dark_mode linux_toggled) with true in Hd.
  rewrite Hd in Hs. auto.
Defined.

(** X11: in a reachable state with the secondary dialog on screen, two
    presses of the toggle button restore both dialogs entirely, but for the
    primary dialog's style sheet when it had never been set: that one
    becomes the style sheet of the flag. *)
Theorem double_toggle_restores (w : world) (a : AboutThisMac.t) :
  reachable w a ->
  AboutThisMac.more_info_visible a = true ->
  fst (AboutThisMac.press_toggle (fst (AboutThisMac.press_toggle a)))
  = AboutThisMac.mk (AboutThisMac.dark_mode a)
      (style_of (AboutThisMac.dark_mode a))
      (AboutThisMac.mac_title a) (AboutThisMac.labels a)
      (AboutThisMac.more_info_window a) /\
  (AboutThisMac.styleSheet a <> [] ->
   fst (AboutThisMac.press_toggle (fst (AboutThisMac.press_toggle a))) = a).
Proof.
  intros Hr Hv. destruct (reachable_consistent w a Hr) as [Hp Hw].
  unfold AboutThisMac.more_info_visible in Hv.
  destruct a as [pflag pstyle title plabels [win |]];
    [| discriminate Hv].
  destruct (Hw win eq_refl) as (Hd & Hs & Hc).
  destruct win as [flag style labels signal vis].
  simpl in Hv, Hd, Hs, Hc, Hp. subst flag style signal vis.
  split.
  - destruct pflag; reflexivity.
  - intros Hne. destruct Hp as [Hp | [Hp _]].
    + rewrite Hp. destruct pflag; reflexivity.
    + elim Hne. exact Hp.
Qed.

Lemma double_toggle_restores_witness :
  reachable linux_host linux_toggled /\
  AboutThisMac.more_info_visible linux_toggled = true /\
  AboutThisMac.styleSheet linux_toggled <> [] /\
  fst (AboutThisMac.press_toggle (fst (AboutThisMac.press_toggle linux_toggled)))
  = linux_toggled.
Proof.
  assert (Hne : AboutThisMac.styleSheet linux_toggled <> []) by discriminate.
  split; [exact linux_toggled_reachable |]. split; [reflexivity |].
  split; [exact Hne |].
  exact (proj2 (double_toggle_restores linux_host linux_toggled
                  linux_toggled_reachable eq_refl) Hne).
Defined.

(** * Further properties of the memory label and of the flag *)

Local Open Scope Z_scope.

(** Where [round53] goes, by the position of the dropped bits. *)
Lemma round53_by_remainder (n : Z) :
  2 ^ 53 <= n ->
  let P := 2 ^ (Z.log2 n - 52) in
  let h := 2 ^ (Z.log2 n - 53) in
  (n mod P < h -> round53 n = n / P * P) /\
  (h < n mod P -> round53 n = (n / P + 1) * P) /\
  (n mod P = h ->
   round53 n = (if Z.even (n / P) then n / P else n / P + 1) * P).
Proof.
  intros H P h. unfold round53.
  destruct (Z.ltb_spec n (2 ^ 53)); [lia |].
  cbv zeta. replace (Z.log2 n - 52 - 1) with (Z.log2 n - 53) by lia.
  fold P. fold h.
  destruct (Z.ltb_spec (n mod P) h), (Z.ltb_spec h (n mod P));
    repeat split; intros; try lia; reflexivity.
Qed.

(** The arithmetic of a total of more than 53 bits and less than 84: the
    unit in the last place [P] of the quotient, counted in bytes, divides a
    gigabyte. *)
Lemma large_total_facts (total : Z) :
  2 ^ 53 <= total -> total < 2 ^ 83 ->
  let e := Z.log2 total - 52 in
  let P := 2 ^ e in
  let h := 2 ^ (Z.log2 total - 53) in
  let m := 2 ^ (30 - e) in
  let q := total / P in
  let k := total / GiB in
  1 <= e <= 30 /\
  0 < h /\ P = 2 * h /\ 0 < m /\ GiB = m * P /\
  q * P <= total < (q + 1) * P /\ total mod P = total - q * P /\
  k * (m * P) <= total < (k + 1) * (m * P) /\
  k * m <= q /\ q + 1 <= (k + 1) * m /\ 0 <= k.
Proof.
  intros Hb H1 e P h m q k.
  assert (He : 1 <= e <= 30).
  { assert (53 <= Z.log2 total) by (apply Z.log2_le_pow2; lia).
    assert (Z.log2 total < 83) by (apply Z.log2_lt_pow2; lia).
    unfold e. lia. }
  assert (Hh : 0 < h) by (apply Z.pow_pos_nonneg; unfold e in He; lia).
  assert (HP : P = 2 * h).
  { unfold P, h. replace e with (Z.succ (Z.log2 total - 53)) by (unfold e; lia).
    apply Z.pow_succ_r. unfold e in He. lia. }
  assert (Hm : 0 < m) by (apply Z.pow_pos_nonneg; lia).
  assert (HG : GiB = m * P).
  { unfold m, P. rewrite <- Z.pow_add_r by lia.
    replace (30 - e + e) with 30 by lia. reflexivity. }
  assert (HP0 : 0 < P) by lia.
  assert (Hq : q * P <= total < (q + 1) * P).
  { unfold q. pose proof (Z.mul_div_le total P HP0).
    pose proof (Z.mul_succ_div_gt total P HP0). lia. }
  assert (Hmod : total mod P = total - q * P).
  { unfold q. rewrite Z.mod_eq by lia. lia. }
  assert (HG0 : 0 < GiB) by reflexivity.
  assert (Hk : k * (m * P) <= total < (k + 1) * (m * P)).
  { unfold k. rewrite <- HG.
    pose proof (Z.mul_div_le total GiB HG0).
    pose proof (Z.mul_succ_div_gt total GiB HG0). lia. }
  assert (Hk0 : 0 <= k) by (apply Z.div_pos; lia).
  repeat split; try lia; try nia.
Qed.

(** The rounded dividend stays between the two whole numbers of gigabytes
    around the total. *)
Lemma round53_between (total : Z) :
  2 ^ 53 <= total -> total < 2 ^ 83 ->
  total / GiB * GiB <= round53 total <= (total / GiB + 1) * GiB.
Proof.
  intros Hb H1.
  destruct (large_total_facts total Hb H1)
    as (He & Hh & HP & Hm & HG & Hq & Hmod & Hk & Hkq & Hqk & Hk0).
  destruct (round53_by_remainder total Hb) as (Rd & Ru & Rt).
  set (P := 2 ^ (Z.log2 total - 52)) in *.
  set (h := 2 ^ (Z.log2 total - 53)) in *.
  set (m := 2 ^ (30 - (Z.log2 total - 52))) in *.
  set (q := total / P) in *. set (k := total / GiB) in *.
  assert (Lo : k * GiB <= q * P) by (rewrite HG; nia).
  assert (Hi : (q + 1) * P <= (k + 1) * GiB) by (rewrite HG; nia).
  destruct (Z.lt_trichotomy (total mod P) h) as [C | [C | C]].
  - rewrite (Rd C). lia.
  - rewrite (Rt C). destruct (Z.even q); lia.
  - rewrite (Ru C). lia.
Qed.

Lemma memory_gb_large (total : Z) :
  2 ^ 53 <= total -> total < 2 ^ 83 ->
  memory_gb total = inr (round53 total / GiB).
Proof.
  intros Hb H1.
  pose proof (round53_between total Hb H1) as [Lo Hi].
  assert (HG0 : 0 < GiB) by reflexivity.
  assert (Hk0 : 0 <= total / GiB) by (apply Z.div_pos; lia).
  assert (Hk : total / GiB * GiB <= total)
    by (rewrite Z.mul_comm; apply Z.mul_div_le; lia).
  assert (Hnn : 0 <= round53 total) by nia.
  unfold memory_gb, truediv_GiB.
  assert (H0 : 0 <= total) by lia.
  rewrite (Z.abs_eq total H0).
  replace (Z.sgn total) with 1 by (symmetry; apply Z.sgn_pos; lia).
  rewrite Z.mul_1_l, (Z.abs_eq _ Hnn).
  assert (Hsmall : round53 total < 2 ^ 1024 * GiB).
  { assert (V : GiB = 2 ^ 30) by reflexivity.
    assert (B : 2 ^ 83 + 2 ^ 30 < 2 ^ 1024 * 2 ^ 30) by (vm_compute; reflexivity).
    rewrite V in *. lia. }
  destruct (Z.leb_spec (2 ^ 1024 * GiB) (round53 total)); [lia |].
  simpl. f_equal. apply Z.quot_div_nonneg; lia.
Qed.

Lemma round53_reaches_next (total : Z) :
  2 ^ 53 <= total -> total < 2 ^ 83 ->
  (total / GiB + 1) * GiB - total < 2 ^ (Z.log2 total - 53) ->
  round53 total = (total / GiB + 1) * GiB.
Proof.
  intros Hb H1 D.
  destruct (large_total_facts total Hb H1)
    as (He & Hh & HP & Hm & HG & Hq & Hmod & Hk & Hkq & Hqk & Hk0).
  destruct (round53_by_remainder total Hb) as (_ & Ru & _).
  set (P := 2 ^ (Z.log2 total - 52)) in *.
  set (h := 2 ^ (Z.log2 total - 53)) in *.
  set (m := 2 ^ (30 - (Z.log2 total - 52))) in *.
  set (q := total / P) in *. set (k := total / GiB) in *.
  rewrite HG in D.
  assert (E : q + 1 = (k + 1) * m) by nia.
  rewrite Ru; [rewrite HG; nia | rewrite Hmod; nia].
Qed.

Lemma round53_below_next (total : Z) :
  2 ^ 53 <= total -> total < 2 ^ 83 ->
  2 ^ (Z.log2 total - 53) < (total / GiB + 1) * GiB - total ->
  round53 total < (total / GiB + 1) * GiB.
Proof.
  intros Hb H1 D.
  destruct (large_total_facts total Hb H1)
    as (He & Hh & HP & Hm & HG & Hq & Hmod & Hk & Hkq & Hqk & Hk0).
  destruct (round53_by_remainder total Hb) as (Rd & Ru & Rt).
  set (P := 2 ^ (Z.log2 total - 52)) in *.
  set (h := 2 ^ (Z.log2 total - 53)) in *.
  set (m := 2 ^ (30 - (Z.log2 total - 52))) in *.
  set (q := total / P) in *. set (k := total / GiB) in *.
  rewrite HG in *.
  destruct (Z.lt_trichotomy (total mod P) h) as [C | [C | C]].
  - rewrite (Rd C). nia.
  - rewrite (Rt C). assert (q + 1 < (k + 1) * m) by nia.
    destruct (Z.even q); nia.
  - rewrite (Ru C). assert (q + 1 < (k + 1) * m) by nia. nia.
Qed.

(** At exactly half a unit in the last place below the next whole number
    the tie goes to the even significand. *)
Lemma round53_tie_next (total : Z) :
  2 ^ 53 <= total -> total < 2 ^ 83 ->
  (total / GiB + 1) * GiB - total = 2 ^ (Z.log2 total - 53) ->
  round53 total
  = (if (total <? 2 ^ 82) || Z.odd (total / GiB)
     then total / GiB + 1 else total / GiB) * GiB.
Proof.
  intros Hb H1 D.
  destruct (large_total_facts total Hb H1)
    as (He & Hh & HP & Hm & HG & Hq & Hmod & Hk & Hkq & Hqk & Hk0).
  destruct (round53_by_remainder total Hb) as (_ & _ & Rt).
  assert (L82 : total < 2 ^ 82 <-> Z.log2 total < 82)
    by (apply Z.log2_lt_pow2; lia).
  set (e := Z.log2 total - 52) in *.
  set (P := 2 ^ e) in *.
  set (h := 2 ^ (Z.log2 total - 53)) in *.
  set (m := 2 ^ (30 - e)) in *.
  set (q := total / P) in *. set (k := total / GiB) in *.
  assert (E : q + 1 = (k + 1) * m) by (rewrite HG in D; nia).
  rewrite Rt by (rewrite Hmod; rewrite HG in D; nia).
  destruct (Z.ltb_spec total (2 ^ 82)) as [S | S].
  - (* the unit is smaller than a gigabyte: [m] is even, [q] is odd *)
    assert (e < 30) by (unfold e; lia).
    assert (Em : m = 2 * 2 ^ (29 - e)).
    { unfold m. replace (30 - e) with (Z.succ (29 - e)) by lia.
      apply Z.pow_succ_r. lia. }
    assert (Oq : Z.even q = false).
    { replace q with ((k + 1) * 2 ^ (29 - e) * 2 - 1) by lia.
      rewrite Z.even_sub, Z.even_mul. simpl.
      now rewrite orb_true_r. }
    rewrite Oq. simpl orb. cbv iota. rewrite HG. nia.
  - (* the unit is a gigabyte: [q] is [k] *)
    assert (e = 30) by (unfold e; lia).
    assert (Em : m = 1) by (unfold m; replace (30 - e) with 0 by lia; reflexivity).
    assert (Eq : q = k) by nia.
    rewrite Eq, <- Z.negb_even. simpl orb.
    destruct (Z.even k); simpl; rewrite HG; nia.
Qed.

(** X12: for every total below [2^83] bytes the memory query's result is
    displayed without [OverflowError], as the number of whole gigabytes
    rounded down or that number plus one.  It is the number rounded down for
    every total below [2^53] and whenever the total lies more than half a
    unit in the last place of the quotient below the next whole number; it is
    one more whenever the total lies less than that below it, and at exactly
    that distance when the total is below [2^82] or the number rounded down
    is odd. *)
Theorem memory_gb_within_one (total : Z) :
  0 <= total < 2 ^ 83 ->
  exists gb,
    memory_gb total = inr gb /\
    total / GiB <= gb <= total / GiB + 1 /\
    (total < 2 ^ 53 -> gb = total / GiB) /\
    (2 ^ 53 <= total ->
     ((total / GiB + 1) * GiB - total < 2 ^ (Z.log2 total - 53) ->
      gb = total / GiB + 1) /\
     (2 ^ (Z.log2 total - 53) < (total / GiB + 1) * GiB - total ->
      gb = total / GiB) /\
     ((total / GiB + 1) * GiB - total = 2 ^ (Z.log2 total - 53) ->
      gb = if (total <? 2 ^ 82) || Z.odd (total / GiB)
           then total / GiB + 1 else total / GiB)).
Proof.
  intros [H0 H1].
  assert (HG0 : 0 < GiB) by reflexivity.
  destruct (Z.lt_ge_cases total (2 ^ 53)) as [Hs | Hb].
  { exists (total / GiB). split; [apply memory_gb_floor; lia |].
    split; [lia |]. split; [reflexivity | lia]. }
  pose proof (round53_between total Hb H1) as [Lo Hi].
  exists (round53 total / GiB).
  split; [now apply memory_gb_large |].
  assert (Hlo : total / GiB <= round53 total / GiB)
    by (apply Z.div_le_lower_bound; lia).
  split; [split; [exact Hlo | apply Z.div_le_upper_bound; lia] |].
  split; [lia |]. intros _. split; [| split]; intros D.
  - rewrite (round53_reaches_next total Hb H1 D). apply Z.div_mul. lia.
  - pose proof (round53_below_next total Hb H1 D) as Lt.
    assert (round53 total / GiB < total / GiB + 1)
      by (apply Z.div_lt_upper_bound; lia).
    lia.
  - rewrite (round53_tie_next total Hb H1 D). apply Z.div_mul. lia.
Qed.

Lemma memory_gb_within_one_witness :
  0 <= 2 ^ 60 - 1 < 2 ^ 83 /\
  exists gb,
    memory_gb (2 ^ 60 - 1) = inr gb /\
    (2 ^ 60 - 1) / GiB <= gb <= (2 ^ 60 - 1) / GiB + 1 /\
    gb = (2 ^ 60 - 1) / GiB + 1.
Proof.
  assert (H : 0 <= 2 ^ 60 - 1 < 2 ^ 83) by lia.
  split; [exact H |].
  destruct (memory_gb_within_one (2 ^ 60 - 1) H) as (gb & Hm & Hb & _ & Hl).
  exists gb. split; [exact Hm |]. split; [exact Hb |].
  assert (L : 2 ^ 53 <= 2 ^ 60 - 1) by lia.
  apply (proj1 (Hl L)). vm_compute. reflexivity.
Defined.

Local Close Scope Z_scope.

(** X13: the primary dialog's own [toggle_dark_mode] negates its flag and
    sets the matching style sheet without informing the secondary dialog:
    the two flags then differ, and the next press of the secondary dialog's
    button makes them equal again, at the value the primary dialog already
    had. *)
Theorem primary_toggle_not_propagated (a : AboutThisMac.t) :
  synced a ->
  let b := AboutThisMac.toggle_dark_mode a in
  AboutThisMac.dark_mode b = negb (AboutThisMac.dark_mode a) /\
  AboutThisMac.styleSheet b = style_of (AboutThisMac.dark_mode b) /\
  AboutThisMac.more_info_window b = AboutThisMac.more_info_window a /\
  (forall win, AboutThisMac.more_info_window b = Some win ->
               MoreInfoWindow.dark_mode win <> AboutThisMac.dark_mode b) /\
  AboutThisMac.dark_mode (fst (AboutThisMac.press_toggle b))
    = AboutThisMac.dark_mode b /\
  synced (fst (AboutThisMac.press_toggle b)).
Proof.
  intros (win & Hw & Hc & Hd).
  destruct a as [pflag pstyle title plabels pwin]. simpl in Hw, Hd. subst pwin.
  destruct win as [flag style labels signal vis]. simpl in Hc, Hd. subst.
  destruct pflag; cbv zeta; repeat split; try reflexivity;
    try (intros win H; injection H as <-; discriminate);
    (eexists; repeat split; reflexivity).
Qed.

Lemma primary_toggle_not_propagated_witness :
  synced linux_opened /\
  AboutThisMac.dark_mode (AboutThisMac.toggle_dark_mode linux_opened) = true /\
  AboutThisMac.dark_mode
    (fst (AboutThisMac.press_toggle (AboutThisMac.toggle_dark_mode linux_opened)))
  = true.
Proof.
  assert (S : synced linux_opened).
  { eexists. repeat split; reflexivity. }
  split; [exact S |].
  destruct (primary_toggle_not_propagated linux_opened S)
    as (Hb & _ & _ & _ & Hp & _).
  split; [exact Hb |]. rewrite Hp. exact Hb.
Defined.

Lemma step_reachable (w : world) (a a' : AboutThisMac.t) (ev : event) :
  reachable w a -> step w a ev = inr a' -> reachable w a'.
Proof. intros Hr Hs. now apply reach_step with a ev. Qed.

(** What one handled action does to the flag and to the secondary dialog's
    presence on screen. *)
Lemma step_flag_visible (w : world) (a a' : AboutThisMac.t) (ev : event) :
  reachable w a -> step w a ev = inr a' ->
  match ev with
  | click_more_info =>
      AboutThisMac.dark_mode a' = AboutThisMac.dark_mode a /\
      AboutThisMac.more_info_visible a' = true
  | close_dialog =>
      AboutThisMac.dark_mode a' = AboutThisMac.dark_mode a /\
      AboutThisMac.more_info_visible a' = false
  | click_toggle_dark_mode =>
      AboutThisMac.dark_mode a'
        = (if AboutThisMac.more_info_visible a
           then negb (AboutThisMac.dark_mode a) else AboutThisMac.dark_mode a) /\
      AboutThisMac.more_info_visible a' = AboutThisMac.more_info_visible a
  end.
Proof.
  intros Hr Hs. destruct ev; simpl in Hs.
  - destruct (AboutThisMac.more_info_visible a) eqn:V.
    + injection Hs as <-. auto.
    + destruct (show_more_info_spec w a a' Hs) as (win & Hw & _ & _ & _ & Hv & Ha).
      split; [exact Ha |]. unfold AboutThisMac.more_info_visible. now rewrite Hw.
  - destruct (AboutThisMac.more_info_visible a) eqn:V; injection Hs as <-.
    + destruct (reachable_synced w a Hr) as [N | S].
      * unfold AboutThisMac.more_info_visible in V. rewrite N in V. discriminate V.
      * split; [now apply press_toggle_synced |].
        now rewrite (press_toggle_visible a S).
    + auto.
  - injection Hs as <-.
    unfold AboutThisMac.close_more_info, AboutThisMac.more_info_visible.
    destruct (AboutThisMac.more_info_window a) eqn:W; [split; reflexivity |].
    rewrite W. split; reflexivity.
Qed.

(** X14: from any reachable state and through any sequence of openings,
    closings and clicks, the primary dialog's flag ends at its starting value
    when the number of clicks on the toggle button made while the secondary
    dialog was on screen is even, and at its negation when it is odd. *)
Theorem flag_parity_any_actions (w : world) (evs : list event)
    (a a' : AboutThisMac.t) :
  reachable w a ->
  run w a evs = inr a' ->
  AboutThisMac.dark_mode a'
  = xorb (AboutThisMac.dark_mode a)
         (Nat.odd (handled_toggles (AboutThisMac.more_info_visible a) evs)).
Proof.
  revert a. induction evs as [| ev evs IH]; intros a Hr H; simpl in H.
  - injection H as <-. simpl. now rewrite xorb_false_r.
  - destruct (step w a ev) as [e | a1] eqn:E; simpl in H; [discriminate H |].
    pose proof (step_reachable w a a1 ev Hr E) as Hr1.
    pose proof (step_flag_visible w a a1 ev Hr E) as F.
    rewrite (IH a1 Hr1 H).
    destruct ev; destruct F as [Fd Fv]; rewrite Fd, Fv; cbn [handled_toggles];
      try reflexivity.
    destruct (AboutThisMac.more_info_visible a); [| reflexivity].
    rewrite Nat.odd_succ, <- Nat.negb_odd.
    destruct (AboutThisMac.dark_mode a),
      (Nat.odd (handled_toggles true evs)); reflexivity.
Qed.

Lemma flag_parity_any_actions_witness :
  reachable linux_host linux_primary /\
  run linux_host linux_primary
      [click_toggle_dark_mode; click_more_info; click_toggle_dark_mode;
       close_dialog; click_toggle_dark_mode; click_more_info;
       click_toggle_dark_mode; click_toggle_dark_mode]
    = inr (returned no_dialog
             (run linux_host linux_primary
                [click_toggle_dark_mode; click_more_info; click_toggle_dark_mode;
                 close_dialog; click_toggle_dark_mode; click_more_info;
                 click_toggle_dark_mode; click_toggle_dark_mode])) /\
  AboutThisMac.dark_mode
    (returned no_dialog
       (run linux_host linux_primary
          [click_toggle_dark_mode; click_more_info; click_toggle_dark_mode;
           close_dialog; click_toggle_dark_mode; click_more_info;
           click_toggle_dark_mode; click_toggle_dark_mode]))
  = true.
Proof.
  assert (R : reachable linux_host linux_primary)
    by (apply reach_init; reflexivity).
  split; [exact R |]. split; [reflexivity |].
  exact (flag_parity_any_actions linux_host
           [click_toggle_dark_mode; click_more_info; click_toggle_dark_mode;
            close_dialog; click_toggle_dark_mode; click_more_info;
            click_toggle_dark_mode; click_toggle_dark_mode]
           linux_primary _ R eq_refl).
Defined.
